(** * secure-endpoint-mcp-server: route admission, feature flags and request signing

    A shallow embedding of the Python sources

    - [secure_endpoint_mcp/config/settings.py]
    - [secure_endpoint_mcp/config/logging.py]
    - [secure_endpoint_mcp/feature_flags/manager.py]
    - [secure_endpoint_mcp/server/mcp_server.py]
    - [secure_endpoint_mcp/client/auth_client.py]

    Python dictionaries that are only looked up are finite maps ([gmap]),
    dictionaries that are iterated are association lists in insertion order,
    Python sets are [gset]s.  Strings are Rocq strings, read as sequences of
    code points below 256, the first 256 of Unicode.  [str.lower] maps this
    alphabet into itself and is modelled on all of it; [str.upper] is
    modelled on all of it but the two letters whose upper case lies above
    255.  A statement that needs more of the case conversions than holds for
    every Python string carries [Py.isascii] as a hypothesis.  The clock is
    read as the integer [round(time.time() * 1000)]; floating point is not
    modelled.  Of the
    libraries the client calls, [json.dumps] and the compact serialization
    of a JSON Web Signature are modelled, with the keyed hash as a
    parameter; [urlparse] and [urlencode] are parameters. *)

From Stdlib Require Import ZArith Ascii String List Lia Bool.
From Stdlib Require Import DecimalString DecimalPos DecimalZ Strings.Byte.
From stdpp Require Import base decidable option list gmap strings fin_maps.

Import ListNotations.

(** ** Python string primitives *)

Module Py.

(** The double quote character, code point 34. *)
Definition dquote : ascii := "034"%char.

(** [c.isupper()], for a code point below 256: the letters A to Z, and
    192 to 222 without the multiplication sign 215. *)
Definition is_upper_char (c : ascii) : bool :=
  let n := N_of_ascii c in
  ((65 <=? n) && (n <=? 90) || (192 <=? n) && (n <=? 214) || (216 <=? n) && (n <=? 222))%N.

(** The letters whose upper case is one code point below 256: a to z, and
    224 to 254 without the division sign 247.  (The sharp s, 223, has the
    two-letter upper case SS; the micro sign, 181, and the y with diaeresis,
    255, have theirs at 924 and 376.) *)
Definition is_lower_char (c : ascii) : bool :=
  let n := N_of_ascii c in
  ((97 <=? n) && (n <=? 122) || (224 <=? n) && (n <=? 246) || (248 <=? n) && (n <=? 254))%N.

(** [c.lower()]: every upper-case letter below 256 has its lower case 32
    code points above. *)
Definition lower_char (c : ascii) : ascii :=
  if is_upper_char c then ascii_of_N (N_of_ascii c + 32) else c.

Definition upper_char (c : ascii) : ascii :=
  if is_lower_char c then ascii_of_N (N_of_ascii c - 32) else c.

(** The sharp s, code point 223. *)
Definition sharp_s : ascii := "223"%char.

Fixpoint str_map (f : ascii → ascii) (s : string) : string :=
  match s with
  | EmptyString => EmptyString
  | String c s' => String (f c) (str_map f s')
  end.

(** [s.lower()] *)
Definition lower (s : string) : string := str_map lower_char s.

(** [s.upper()]: letter by letter, the sharp s becoming SS.  The code
    points 181 and 255 are left as they are, their upper case being outside
    the alphabet: on a string that holds neither, this is [s.upper()]. *)
Fixpoint upper (s : string) : string :=
  match s with
  | EmptyString => EmptyString
  | String c s' =>
      if Ascii.eqb c sharp_s then String "S" (String "S" (upper s'))
      else String (upper_char c) (upper s')
  end.

(** [s.isascii()] *)
Fixpoint isascii (s : string) : bool :=
  match s with
  | EmptyString => true
  | String c s' => (N_of_ascii c <? 128)%N && isascii s'
  end.

(** [s.replace(old, new)] for one-character [old] and [new]. *)
Definition replace (old new : ascii) (s : string) : string :=
  str_map (λ c, if Ascii.eqb c old then new else c) s.

(** [s.startswith(p)] *)
Fixpoint startswith (p s : string) : bool :=
  match p, s with
  | EmptyString, _ => true
  | String a p', String b s' => Ascii.eqb a b && startswith p' s'
  | String _ _, EmptyString => false
  end.

(** [sub in s] *)
Fixpoint contains (sub s : string) : bool :=
  startswith sub s ||
  match s with
  | EmptyString => false
  | String _ s' => contains sub s'
  end.

(** [s[n:]] *)
Fixpoint drop (n : nat) (s : string) : string :=
  match n, s with
  | O, _ => s
  | S n', String _ s' => drop n' s'
  | S _, EmptyString => EmptyString
  end.

(** Truthiness of a string: [bool(s)]. *)
Definition truthy (s : string) : bool :=
  match s with EmptyString => false | String _ _ => true end.

(** [c.isspace()], for a code point below 256: the ASCII white space, the
    separators 28 to 31, next line and the no-break space. *)
Definition isspace (c : ascii) : bool :=
  let n := N_of_ascii c in
  ((9 <=? n) && (n <=? 13) || (28 <=? n) && (n <=? 32) || (n =? 133) || (n =? 160))%N.

(** [s.lstrip()] *)
Fixpoint lstrip (s : string) : string :=
  match s with
  | EmptyString => EmptyString
  | String c s' => if isspace c then lstrip s' else s
  end.

(** [s.rstrip()] *)
Fixpoint rstrip (s : string) : string :=
  match s with
  | EmptyString => EmptyString
  | String c s' =>
      match rstrip s' with
      | EmptyString => if isspace c then EmptyString else String c EmptyString
      | String _ _ as r => String c r
      end
  end.

(** [s.strip()] *)
Definition strip (s : string) : string := rstrip (lstrip s).

End Py.

(** ** Dictionaries that are iterated: insertion-ordered association lists *)

Module Dict.
Section Dict.
Context {V : Type}.

Definition t : Type := list (string * V).

(** [k in d] *)
Fixpoint mem (k : string) (d : t) : bool :=
  match d with
  | [] => false
  | (k', _) :: d' => String.eqb k k' || mem k d'
  end.

(** [d.get(k)] *)
Fixpoint get (k : string) (d : t) : option V :=
  match d with
  | [] => None
  | (k', v) :: d' => if String.eqb k k' then Some v else get k d'
  end.

(** [d[k] = v]: an existing key keeps its place, a new key goes last. *)
Fixpoint set (k : string) (v : V) (d : t) : t :=
  match d with
  | [] => [(k, v)]
  | (k', v') :: d' =>
      if String.eqb k k' then (k', v) :: d' else (k', v') :: set k v d'
  end.

(** [bool(d)] *)
Definition truthy (d : t) : bool :=
  match d with [] => false | _ :: _ => true end.

End Dict.
Arguments t : clear implicits.
End Dict.

(** ** config/settings.py *)

Module Settings.

Record Settings := {
  API_HOST : string;
  API_KEY : string;
  API_SECRET : string;
  HTTP_TIMEOUT_SECONDS : Z;
  DISABLE_ADVANCED_API_BLOCKLIST : bool
}.

(** The class defaults. *)
Definition default : Settings := {|
  API_HOST := "https://api.absolute.com";
  API_KEY := "";
  API_SECRET := "";
  HTTP_TIMEOUT_SECONDS := 30;
  DISABLE_ADVANCED_API_BLOCKLIST := false
|}.

Definition prefix : string := "ABS_FEATURE_".

(** The loop of [get_feature_flags_from_env] over [os.environ.items()]. *)
Fixpoint scan_env (environ : list (string * string)) (result : gmap string bool)
    : gmap string bool :=
  match environ with
  | [] => result
  | (key, value) :: rest =>
      if Py.startswith prefix key then
        let feature_name :=
          Py.replace "_" "-" (Py.lower (Py.drop (String.length prefix) key)) in
        scan_env rest (<[feature_name := String.eqb (Py.lower value) "enabled"]> result)
      else scan_env rest result
  end.

Definition get_feature_flags_from_env (environ : list (string * string))
    : gmap string bool :=
  let result := scan_env environ ∅ in
  if bool_decide (result = ∅) && negb (bool_decide (is_Some (result !! "device-reporting")))
  then <["device-reporting" := true]> result
  else result.

End Settings.

(** ** feature_flags/manager.py *)

Module FeatureFlags.

Record FeatureFlagManager := {
  _flags : gmap string bool;
  _api_groups : Dict.t (gset (string * string))
}.

(** [FeatureFlagManager.__init__] *)
Definition init (s_env : list (string * string)) : FeatureFlagManager := {|
  _flags := Settings.get_feature_flags_from_env s_env;
  _api_groups := []
|}.

Definition register_api_group (group_name api_path http_method : string)
    (self : FeatureFlagManager) : FeatureFlagManager :=
  let groups :=
    if negb (Dict.mem group_name (_api_groups self))
    then Dict.set group_name ∅ (_api_groups self)
    else _api_groups self in
  let members := default ∅ (Dict.get group_name groups) in
  {| _flags := _flags self;
     _api_groups :=
       Dict.set group_name (members ∪ {[ (api_path, Py.upper http_method) ]}) groups |}.

(** The [for] loop of [is_api_enabled]: [Some b] when the loop returns [b],
    [None] when it runs to its end. *)
Fixpoint scan_groups (flags : gmap string bool) (key : string * string)
    (groups : Dict.t (gset (string * string))) : option bool :=
  match groups with
  | [] => None
  | (group_name, paths_with_methods) :: rest =>
      if bool_decide (key ∈ paths_with_methods)
      then Some (default false (flags !! group_name))
      else scan_groups flags key rest
  end.

Definition is_api_enabled (self : FeatureFlagManager) (api_path http_method : string)
    : bool :=
  if bool_decide (_flags self = ∅) && negb (Dict.truthy (_api_groups self)) then true
  else
    match scan_groups (_flags self) (api_path, Py.upper http_method) (_api_groups self) with
    | Some b => b
    | None => true
    end.

Definition get_enabled_api_groups (self : FeatureFlagManager) : gset string :=
  dom (filter (λ kv, kv.2 = true) (_flags self)).

Definition get_disabled_api_groups (self : FeatureFlagManager) : gset string :=
  dom (filter (λ kv, kv.2 = false) (_flags self)).

End FeatureFlags.

(** ** server/mcp_server.py *)

Module Server.

(** [fastmcp.server.openapi.MCPType] *)
Inductive MCPType := TOOL | RESOURCE | RESOURCE_TEMPLATE | EXCLUDE.

Global Instance MCPType_eq_dec : EqDecision MCPType.
Proof. solve_decision. Defined.

(** The two attributes of a FastMCP route that the server reads. *)
Record HTTPRoute := { path : string; method : string }.

(** Calls made on the global [feature_flags] object are recorded, oldest
    first, the way the test suite's mock records them. *)
Inductive Call := Call_is_api_enabled (api_path http_method : string).

Definition Traced (A : Type) : Type := list Call → A * list Call.

Global Instance Traced_ret : MRet Traced := λ A (a : A) (log : list Call), (a, log).
Global Instance Traced_bind : MBind Traced :=
  λ A B (f : A → Traced B) (m : Traced A) (log : list Call),
    let (a, log') := m log in f a log'.

(** [feature_flags.is_api_enabled(api_path, http_method)], recorded. *)
Definition call_is_api_enabled (feature_flags : FeatureFlags.FeatureFlagManager)
    (api_path http_method : string) : Traced bool :=
  λ log, (FeatureFlags.is_api_enabled feature_flags api_path http_method,
          log ++ [Call_is_api_enabled api_path http_method]).

Definition _transform_tag_name (tag : string) : string :=
  Py.replace " " "-" (Py.lower tag).

Definition _route_map_fn (settings : Settings.Settings)
    (feature_flags : FeatureFlags.FeatureFlagManager)
    (route : HTTPRoute) (mcp_type : MCPType) : Traced MCPType :=
  let categorize : Traced MCPType :=
    enabled ← call_is_api_enabled feature_flags (path route) (Py.upper (method route));
    if negb enabled then mret EXCLUDE
    else if String.eqb (Py.upper (method route)) "GET" then mret TOOL
    else if bool_decide (Py.upper (method route) ∈ ["POST"; "PUT"; "PATCH"; "DELETE"])
         then mret TOOL
    else mret mcp_type in
  if Py.contains "-advanced" (path route) then
    if negb (Settings.DISABLE_ADVANCED_API_BLOCKLIST settings) then mret EXCLUDE
    else categorize
  else categorize.

(** One operation object of the OpenAPI document, as far as it is read:
    [operation.get("tags", [])]. *)
Record Operation := { tags : list string }.

(** [openapi_spec.get("paths", {})]: path, then method, then operation. *)
Definition Paths : Type := Dict.t (Dict.t Operation).

(** The innermost loop of [_extract_api_groups_from_openapi], over the tags
    of one operation. *)
Definition extract_tags (p m : string) (tag_list : list string)
    (api_groups : Dict.t (gset (string * string))) : Dict.t (gset (string * string)) :=
  fold_left (λ groups tag,
    let transformed_tag := _transform_tag_name tag in
    let groups :=
      if negb (Dict.mem transformed_tag groups)
      then Dict.set transformed_tag ∅ groups else groups in
    Dict.set transformed_tag
      (default ∅ (Dict.get transformed_tag groups) ∪ {[ (p, Py.upper m) ]}) groups)
    tag_list api_groups.

Definition extract_methods (p : string) (methods : Dict.t Operation)
    (api_groups : Dict.t (gset (string * string))) : Dict.t (gset (string * string)) :=
  fold_left (λ groups '(m, operation), extract_tags p m (tags operation) groups)
    methods api_groups.

Definition extract_paths (paths : Paths)
    (api_groups : Dict.t (gset (string * string))) : Dict.t (gset (string * string)) :=
  fold_left (λ groups '(p, methods), extract_methods p methods groups)
    paths api_groups.

(** The second loop: every member of every group is registered with the
    feature flag manager; a set is iterated in the order of [elements]. *)
Definition register_groups (api_groups : Dict.t (gset (string * string)))
    (feature_flags : FeatureFlags.FeatureFlagManager) : FeatureFlags.FeatureFlagManager :=
  fold_left (λ ff '(group_name, paths_with_methods),
    fold_left (λ ff '(p, m), FeatureFlags.register_api_group group_name p m ff)
      (elements paths_with_methods) ff)
    api_groups feature_flags.

(** [_extract_api_groups_from_openapi]: the new [self._api_groups] and the
    new state of the global [feature_flags]. *)
Definition _extract_api_groups_from_openapi (paths : Paths)
    (self_api_groups : Dict.t (gset (string * string)))
    (feature_flags : FeatureFlags.FeatureFlagManager)
    : Dict.t (gset (string * string)) * FeatureFlags.FeatureFlagManager :=
  let api_groups := extract_paths paths self_api_groups in
  (api_groups, register_groups api_groups feature_flags).

End Server.

(** ** JSON values and [json.dumps] *)

Module Json.

(** The values a request body or a JWS header holds.  Dictionaries keep
    their insertion order.  Floating point numbers are left out. *)
#[local] Set Warnings "-register-all".
Inductive JSON :=
| JNull
| JBool (b : bool)
| JInt (n : Z)
| JStr (s : string)
| JList (l : list JSON)
| JDict (d : list (string * JSON)).

(** [bool(v)] for a dictionary or [None]: the truthiness test of
    [json_data if json_data else {}]. *)
Definition dict_truthy (d : option (list (string * JSON))) : bool :=
  match d with
  | None => false
  | Some [] => false
  | Some (_ :: _) => true
  end.

Definition hex_digit (n : N) : ascii :=
  default "0"%char (String.get (N.to_nat n) "0123456789abcdef").

(** ['\\u{0:04x}'.format(n)] for a code point below 256. *)
Definition u_escape (c : ascii) : string :=
  "\u00" +:+ String (hex_digit (N_of_ascii c / 16))
             (String (hex_digit (N_of_ascii c mod 16)) "").

(** One character of a string literal: [ESCAPE_DCT] of [json.encoder], with
    every character outside the printable ASCII range escaped as well when
    [ensure_ascii] is set. *)
Definition escape_char (ensure_ascii : bool) (c : ascii) : string :=
  if Ascii.eqb c Py.dquote then String "\" (String Py.dquote "")
  else if Ascii.eqb c "\" then "\\"
  else if Ascii.eqb c "010" then "\n"
  else if Ascii.eqb c "013" then "\r"
  else if Ascii.eqb c "009" then "\t"
  else if Ascii.eqb c "012" then "\f"
  else if Ascii.eqb c "008" then "\b"
  else if (N_of_ascii c <? 32)%N then u_escape c
  else if ensure_ascii && (126 <? N_of_ascii c)%N then u_escape c
  else String c "".

Fixpoint escape (ensure_ascii : bool) (s : string) : string :=
  match s with
  | EmptyString => EmptyString
  | String c s' => escape_char ensure_ascii c +:+ escape ensure_ascii s'
  end.

Definition dumps_str (ensure_ascii : bool) (s : string) : string :=
  String Py.dquote (escape ensure_ascii s +:+ String Py.dquote "").

(** [str(n)] for an integer. *)
Definition dumps_int (n : Z) : string := NilZero.string_of_int (Z.to_int n).

(** [sep.join(l)] *)
Fixpoint join (sep : string) (l : list string) : string :=
  match l with
  | [] => ""
  | [x] => x
  | x :: l' => x +:+ sep +:+ join sep l'
  end.

(** [json.dumps(v, ensure_ascii=..., separators=(item_separator, key_separator))] *)
Fixpoint dumps (ensure_ascii : bool) (item_separator key_separator : string)
    (v : JSON) : string :=
  match v with
  | JNull => "null"
  | JBool true => "true"
  | JBool false => "false"
  | JInt n => dumps_int n
  | JStr s => dumps_str ensure_ascii s
  | JList l =>
      "[" +:+ join item_separator
                (List.map (dumps ensure_ascii item_separator key_separator) l) +:+ "]"
  | JDict d =>
      "{" +:+ join item_separator
                (List.map (λ kv, match kv with
                                 | (k, x) =>
                                     dumps_str ensure_ascii k +:+ key_separator +:+
                                     dumps ensure_ascii item_separator key_separator x
                                 end) d) +:+ "}"
  end.

(** [json.dumps(v)] with the defaults of the standard library. *)
Definition dumps_default (v : JSON) : string := dumps true ", " ": " v.

(** authlib's [json_dumps]: compact separators, no ASCII escaping. *)
Definition dumps_compact (v : JSON) : string := dumps false "," ":" v.

End Json.

(** ** Bytes, UTF-8 and base64url *)

Module Codec.

Definition byte_of_N (n : N) : byte := byte_of_ascii (ascii_of_N n).

(** [s.encode("utf-8")], for a string of code points below 256. *)
Fixpoint to_bytes (s : string) : list byte :=
  match s with
  | EmptyString => []
  | String c s' =>
      if (N_of_ascii c <? 128)%N then byte_of_ascii c :: to_bytes s'
      else byte_of_N (192 + N_of_ascii c / 64)
             :: byte_of_N (128 + N_of_ascii c mod 64) :: to_bytes s'
  end.

Definition b64_alphabet : string :=
  "ABCDEFGHIJKLMNOPQRSTUVWXYZabcdefghijklmnopqrstuvwxyz0123456789-_".

Definition b64_char (n : N) : ascii :=
  default "A"%char (String.get (N.to_nat n) b64_alphabet).

(** [base64.urlsafe_b64encode(bs).rstrip(b"=")]: base64url without padding
    (RFC 7515, section 2), three bytes to four characters. *)
Fixpoint urlsafe_b64encode (bs : list byte) : string :=
  match bs with
  | [] => ""
  | [a] =>
      let x := Byte.to_N a in
      String (b64_char (x / 4)) (String (b64_char (x mod 4 * 16)) "")
  | [a; b] =>
      let x := Byte.to_N a in
      let y := Byte.to_N b in
      String (b64_char (x / 4))
        (String (b64_char (x mod 4 * 16 + y / 16))
           (String (b64_char (y mod 16 * 4)) ""))
  | a :: b :: c :: rest =>
      let x := Byte.to_N a in
      let y := Byte.to_N b in
      let z := Byte.to_N c in
      String (b64_char (x / 4))
        (String (b64_char (x mod 4 * 16 + y / 16))
           (String (b64_char (y mod 16 * 4 + z / 64))
              (String (b64_char (z mod 64)) (urlsafe_b64encode rest))))
  end%N.

End Codec.

(** ** JSON Web Signature, compact serialization *)

Module Jws.
Section Jws.

(** The keyed hash of the [HS256] algorithm, [hmac.new(key, msg, sha256).digest()]. *)
Variable hmac_sha256 : list byte → list byte → list byte.

(** [JsonWebSignature.serialize_compact(protected, payload, key)] of authlib
    for an [HS256] header (RFC 7515, section 7.1): the base64url of the
    compact JSON header, of the payload and of the keyed hash of the first
    two, joined by dots. *)
Definition serialize_compact (protected : list (string * Json.JSON))
    (payload key : string) : string :=
  let protected_segment :=
    Codec.urlsafe_b64encode (Codec.to_bytes (Json.dumps_compact (Json.JDict protected))) in
  let payload_segment := Codec.urlsafe_b64encode (Codec.to_bytes payload) in
  let signing_input := protected_segment +:+ "." +:+ payload_segment in
  let signature :=
    Codec.urlsafe_b64encode
      (hmac_sha256 (Codec.to_bytes key) (Codec.to_bytes signing_input)) in
  signing_input +:+ "." +:+ signature.

End Jws.
End Jws.

(** ** client/auth_client.py *)

Module AuthClient.

Record AbsoluteAuthClient := {
  token_id : string;
  token_secret : string;
  api_endpoint : string;
  timeout_seconds : Z
}.

(** [AbsoluteAuthClient.__init__] *)
Definition init (settings : Settings.Settings) (api_key api_secret : string)
    (timeout : Z) : AbsoluteAuthClient := {|
  token_id := api_key;
  token_secret := api_secret;
  api_endpoint := Settings.API_HOST settings +:+ "/jws/validate";
  timeout_seconds := timeout
|}.

(** What a call reads and writes besides its arguments: the clock, as the
    value of [round(time.time() * 1000)] at the call, and the debug log. *)
Record World := { issued_at_ms : Z; debug_log : list string }.

Definition IO (A : Type) : Type := World → A * World.

#[global] Instance IO_ret : MRet IO := λ A (a : A) (w : World), (a, w).
#[global] Instance IO_bind : MBind IO :=
  λ A B (f : A → IO B) (m : IO A) (w : World), let (a, w') := m w in f a w'.

Definition time_ms : IO Z := λ w, (issued_at_ms w, w).

Definition logger_debug (msg : string) : IO unit :=
  λ w, (tt, {| issued_at_ms := issued_at_ms w; debug_log := debug_log w ++ [msg] |}).

(** [urllib.parse.urlparse(url)], the two components that are read. *)
Record ParseResult := { url_path : string; url_query : string }.

(** The keyword arguments of [request] that are read. *)
Record Kwargs := {
  json : option (list (string * Json.JSON));
  params : option (Dict.t string);
  headers : option (Dict.t string);
  cookies : option string;
  follow_redirects : option bool;
  timeout : option Z;
  extensions : option string;
  api_endpoint_override : option string
}.

(** The arguments of the call [super().request(...)]. *)
Record TransportCall := {
  t_method : string;
  t_url : string;
  t_content : string;
  t_headers : Dict.t string;
  t_cookies : option string;
  t_follow_redirects : option bool;
  t_timeout : option Z;
  t_extensions : option string
}.

(** The first statement of [request]. *)
Definition add_v3_prefix (url : string) : string :=
  if negb (Py.startswith "/v3" url) then "/v3" +:+ url else url.

(** The loop of [request] over [headers.items()]. *)
Definition merge_headers (hs : Dict.t string) (jws_headers : Dict.t string)
    : Dict.t string :=
  fold_left (λ acc '(key, value),
    if negb (String.eqb (Py.lower key) "content-type")
    then Dict.set key value acc else acc) hs jws_headers.

Section Client.

Variable hmac_sha256 : list byte → list byte → list byte.
Variable urlparse : string → ParseResult.
(** [urllib.parse.urlencode(params)] *)
Variable urlencode : Dict.t string → string.

(** The payload that is signed: [json.dumps(request_payload_data)]. *)
Definition request_payload (json_data : option (list (string * Json.JSON))) : string :=
  let payload := if Json.dict_truthy json_data then default [] json_data else [] in
  let request_payload_data := Json.JDict [("data", Json.JDict payload)] in
  Json.dumps_default request_payload_data.

(** The JWS headers, given the clock reading. *)
Definition jws_header (self : AbsoluteAuthClient) (method path query_string : string)
    (issued_at : Z) : list (string * Json.JSON) :=
  [ ("alg", Json.JStr "HS256");
    ("kid", Json.JStr (token_id self));
    ("method", Json.JStr (Py.upper method));
    ("content-type", Json.JStr "application/json");
    ("uri", Json.JStr path);
    ("query-string", Json.JStr query_string);
    ("issuedAt", Json.JInt issued_at) ].

(** [_prepare_jws_payload]: the signed envelope, with the clock read once
    and one line written to the debug log.  The envelope is a [bytes]
    object, which the log line shows as [b'...']; no character of an
    envelope needs an escape there. *)
Definition _prepare_jws_payload (self : AbsoluteAuthClient)
    (method path query_string : string)
    (json_data : option (list (string * Json.JSON))) : IO string :=
  let payload := request_payload json_data in
  now ← time_ms;
  let headers := jws_header self method path query_string now in
  let signed := Jws.serialize_compact hmac_sha256 headers payload (token_secret self) in
  _ ← logger_debug ("Created JWS for request: " +:+ method +:+ " " +:+ path
                    +:+ ": b'" +:+ signed +:+ "'");
  mret signed.

(** [request], up to the call of the base client: the result is the
    argument list of [super().request(...)], whose awaited response the
    method returns unchanged.  The arguments [content], [data], [files] and
    [auth] are accepted and never read. *)
Definition request (self : AbsoluteAuthClient) (method url : string) (kw : Kwargs)
    : IO TransportCall :=
  let url := add_v3_prefix url in
  _ ← logger_debug ("Making request: " +:+ method +:+ " " +:+ url);
  let parsed_url := urlparse url in
  let path := url_path parsed_url in
  let query_string := url_query parsed_url in
  let query_string :=
    match params kw with
    | Some ps =>
        if Dict.truthy ps then
          let additional_query := urlencode ps in
          if Py.truthy query_string
          then query_string +:+ "&" +:+ additional_query
          else additional_query
        else query_string
    | None => query_string
    end in
  signed_payload ← _prepare_jws_payload self method path query_string (json kw);
  let jws_headers : Dict.t string := [("content-type", "text/plain")] in
  let jws_headers :=
    match headers kw with
    | Some hs => if Dict.truthy hs then merge_headers hs jws_headers else jws_headers
    | None => jws_headers
    end in
  let endpoint :=
    match api_endpoint_override kw with
    | Some e => if Py.truthy e then e else api_endpoint self
    | None => api_endpoint self
    end in
  mret {| t_method := "POST";
          t_url := endpoint;
          t_content := signed_payload;
          t_headers := jws_headers;
          t_cookies := cookies kw;
          t_follow_redirects := follow_redirects kw;
          t_timeout := timeout kw;
          t_extensions := extensions kw |}.

End Client.
End AuthClient.

(** * The vocabulary of the specification *)

Module Spec.

(** Two characters that the tag transform does not tell apart: the same
    letter in either case, or a space and a dash. *)
Definition same_tag_char (a b : ascii) : Prop :=
  Py.lower_char a = Py.lower_char b
  ∨ (a = " "%char ∧ b = "-"%char)
  ∨ (a = "-"%char ∧ b = " "%char).

(** Two tags of the same length whose characters agree position by position
    up to [same_tag_char]. *)
Inductive same_tag : string → string → Prop :=
| same_tag_nil : same_tag "" ""
| same_tag_cons a b s t :
    same_tag_char a b → same_tag s t → same_tag (String a s) (String b t).

(** What the tag transform does to one character. *)
Definition transform_char (c : ascii) : ascii :=
  if Ascii.eqb (Py.lower_char c) " " then "-"%char else Py.lower_char c.

(** Rules 2 to 4 of the decision function: one flag check, made on the
    upper-cased method; [Excluded] when the check fails, [Tool] for the five
    verbs, the caller's default for any other method. *)
Definition flag_and_method_rules (feature_flags : FeatureFlags.FeatureFlagManager)
    (route : Server.HTTPRoute) (mcp_type : Server.MCPType)
    : Server.Traced Server.MCPType :=
  λ log,
    let m := Py.upper (Server.method route) in
    (if FeatureFlags.is_api_enabled feature_flags (Server.path route) m
     then if bool_decide (m ∈ ["GET"; "POST"; "PUT"; "PATCH"; "DELETE"])
          then Server.TOOL else mcp_type
     else Server.EXCLUDE,
     log ++ [Server.Call_is_api_enabled (Server.path route) m]).

(** The operation [(api_path, http_method)] belongs to the registered group
    [group_name]. *)
Definition belongs (self : FeatureFlags.FeatureFlagManager)
    (group_name api_path http_method : string) : Prop :=
  ∃ members,
    (group_name, members) ∈ FeatureFlags._api_groups self
    ∧ (api_path, Py.upper http_method) ∈ members.

(** A JSON string literal without characters to escape: [s] between double
    quotes. *)
Definition quoted (s : string) : string :=
  String Py.dquote (s +:+ String Py.dquote "").

(** The keyword arguments [kw] with [json=body]. *)
Definition with_json (body : option (list (string * Json.JSON)))
    (kw : AuthClient.Kwargs) : AuthClient.Kwargs :=
  {| AuthClient.json := body;
     AuthClient.params := AuthClient.params kw;
     AuthClient.headers := AuthClient.headers kw;
     AuthClient.cookies := AuthClient.cookies kw;
     AuthClient.follow_redirects := AuthClient.follow_redirects kw;
     AuthClient.timeout := AuthClient.timeout kw;
     AuthClient.extensions := AuthClient.extensions kw;
     AuthClient.api_endpoint_override := AuthClient.api_endpoint_override kw |}.

(** The interface description [paths] declares the operation [op] for the
    method key [m] under the path [p]. *)
Definition declares (paths : Server.Paths) (p m : string) (op : Server.Operation) : Prop :=
  ∃ methods, (p, methods) ∈ paths ∧ (m, op) ∈ methods.

(** The dictionary of groups holds the pair [key] in the group [group_name]. *)
Definition member (groups : Dict.t (gset (string * string)))
    (group_name : string) (key : string * string) : Prop :=
  ∃ members, (group_name, members) ∈ groups ∧ key ∈ members.

(** What both registration loops do with one pair: the group is created
    empty when it is new, then the pair is added to it. *)
Definition add_member (group_name : string) (key : string * string)
    (groups : Dict.t (gset (string * string))) : Dict.t (gset (string * string)) :=
  let groups :=
    if negb (Dict.mem group_name groups)
    then Dict.set group_name ∅ groups else groups in
  Dict.set group_name (default ∅ (Dict.get group_name groups) ∪ {[ key ]}) groups.

(** [op] is the only operation that [paths] declares for the path [p] and a
    method key that upper-cases like [m]. *)
Definition only_operation (paths : Server.Paths) (p m : string)
    (op : Server.Operation) : Prop :=
  declares paths p m op
  ∧ ∀ m' op', declares paths p m' op' → Py.upper m' = Py.upper m → op' = op.

(** The position of a character in a string, counted from [i]; the length
    of the string past [i] when the character is not in it. *)
Fixpoint index_from (i : N) (c : ascii) (s : string) : N :=
  match s with
  | EmptyString => i
  | String a s' => if Ascii.eqb a c then i else index_from (N.succ i) c s'
  end.

(** The six bits that a base64url character stands for. *)
Definition b64_index (c : ascii) : N := index_from 0 c Codec.b64_alphabet.

End Spec.

(** * Concrete inputs *)

Module Fixtures.

(** The flag manager of [test_is_api_enabled_with_group], with an advanced
    route in its enabled group. *)
Definition test_manager : FeatureFlags.FeatureFlagManager :=
  FeatureFlags.register_api_group "disabled_group" "/api/disabled" "GET"
    (FeatureFlags.register_api_group "test_group" "/api/test-advanced" "GET"
       {| FeatureFlags._flags := {[ "test_group" := true; "disabled_group" := false ]};
          FeatureFlags._api_groups := [] |}).

(** The process environment of a deployment that sets no feature flag. *)
Definition plain_environ : list (string * string) :=
  [("API_KEY", "foo"); ("API_SECRET", "bar")].

(** An interface description with one operation that carries two tags. *)
Definition two_tag_paths : Server.Paths :=
  [("/reports", [("get", {| Server.tags := ["Device Reporting"; "Software Reporting"] |})])].

(** The flag manager after start-up on [two_tag_paths] in [plain_environ]. *)
Definition two_tag_manager : FeatureFlags.FeatureFlagManager :=
  (Server._extract_api_groups_from_openapi two_tag_paths []
     (FeatureFlags.init plain_environ)).2.

(** A stand-in for the keyed hash. *)
Definition mock_hmac (key msg : list byte) : list byte := key ++ msg.

(** A stand-in for [urlparse] on a relative URL: the path up to the first
    question mark, the query after it. *)
Fixpoint split_query (url : string) : string * string :=
  match url with
  | EmptyString => ("", "")
  | String c rest =>
      if Ascii.eqb c "?" then ("", rest)
      else let (p, q) := split_query rest in (String c p, q)
  end.

Definition mock_urlparse (url : string) : AuthClient.ParseResult :=
  {| AuthClient.url_path := (split_query url).1;
     AuthClient.url_query := (split_query url).2 |}.

(** A stand-in for [urlencode] on keys and values without reserved characters. *)
Definition mock_urlencode (ps : Dict.t string) : string :=
  Json.join "&" (List.map (λ kv, kv.1 +:+ "=" +:+ kv.2) ps).

(** The client and the clock of the test suite. *)
Definition test_client : AuthClient.AbsoluteAuthClient :=
  AuthClient.init Settings.default "test_key" "test_secret" 30.

Definition test_world : AuthClient.World :=
  {| AuthClient.issued_at_ms := 1234567890000; AuthClient.debug_log := [] |}.

(** A call that passes the empty string as [api_endpoint]. *)
Definition empty_endpoint_kwargs : AuthClient.Kwargs :=
  {| AuthClient.json := None;
     AuthClient.params := None;
     AuthClient.headers := None;
     AuthClient.cookies := None;
     AuthClient.follow_redirects := None;
     AuthClient.timeout := None;
     AuthClient.extensions := None;
     AuthClient.api_endpoint_override := Some "" |}.

(** The call of [test_auth_client_with_custom_headers], with two content
    types of the caller's added, and a custom endpoint. *)
Definition custom_kwargs : AuthClient.Kwargs :=
  {| AuthClient.json := Some [("key", Json.JStr "value")];
     AuthClient.params := Some [("param", "value")];
     AuthClient.headers :=
       Some [("Custom-Header", "value"); ("Content-Type", "application/json");
             ("Another-Header", "another-value"); ("content-type", "text/html")];
     AuthClient.cookies := None;
     AuthClient.follow_redirects := None;
     AuthClient.timeout := None;
     AuthClient.extensions := None;
     AuthClient.api_endpoint_override := Some "https://custom.example.com/api" |}.

(** The interface description of the end-to-end scenario. *)
Definition reporting_paths : Server.Paths :=
  [("/reporting/devices", [("get", {| Server.tags := ["Device Reporting"] |})]);
   ("/reporting/software", [("get", {| Server.tags := ["Software Reporting"] |})])].

(** The state of the manager of [test_is_api_enabled_with_group] after its
    three registrations. *)
Definition grouped_manager : FeatureFlags.FeatureFlagManager :=
  {| FeatureFlags._flags := {[ "test_group" := true; "disabled_group" := false ]};
     FeatureFlags._api_groups :=
       [("test_group", {[ ("/api/test1", "GET"); ("/api/test2", "POST") ]});
        ("disabled_group", {[ ("/api/disabled", "GET") ]})] |}.



(** An interface description with a tagged report and an operation that
    carries no tag. *)
Definition health_paths : Server.Paths :=
  [("/reporting/devices", [("get", {| Server.tags := ["Device Reporting"] |})]);
   ("/health", [("get", {| Server.tags := [] |})])].

(** The process environment of a deployment that disables device reports. *)
Definition disabling_environ : list (string * string) :=
  [("API_KEY", "foo"); ("ABS_FEATURE_DEVICE_REPORTING", "disabled")].

End Fixtures.

(** * The rest of the sources *)

(** ** config/logging.py *)

Module Logging.

(** The levels of the standard [logging] module. *)
Definition DEBUG : Z := 10.
Definition INFO : Z := 20.
Definition WARNING : Z := 30.
Definition ERROR : Z := 40.
Definition CRITICAL : Z := 50.

Definition LOG_LEVEL_MAP : gmap string Z :=
  {[ "debug" := DEBUG; "info" := INFO; "warning" := WARNING;
     "error" := ERROR; "critical" := CRITICAL ]}.

(** The level that [configure_logging] hands to [logging.basicConfig] and to
    the root logger, from [settings.LOG_LEVEL]. *)
Definition log_level (LOG_LEVEL : string) : Z :=
  let log_level_str := Py.lower LOG_LEVEL in
  default INFO (LOG_LEVEL_MAP !! log_level_str).

End Logging.

(** ** server/mcp_server.py: the descriptions of the interface document *)

Module Description.

(** A parsed JSON document, as [response.json()] returns it: strings, lists
    and dictionaries, and every other value (numbers, booleans, [None]) as an
    atom of a type that is left open. *)
#[local] Set Warnings "-register-all".
Inductive Node (Atom : Type) :=
| NAtom (a : Atom)
| NStr (s : string)
| NList (l : list (Node Atom))
| NDict (d : list (string * Node Atom)).

Arguments NAtom {Atom} a.
Arguments NStr {Atom} s.
Arguments NList {Atom} l.
Arguments NDict {Atom} d.

Section Strip.

Context {Atom : Type}.

(** [h.handle] of the [html2text.HTML2Text] object that the method sets up. *)
Variable handle : string → string.

(** [_strip_html_from_description]: the document after the call, which
    rewrites it in place.  A dictionary entry named [description] whose value
    is a string gets the stripped text; any other entry or list item is
    visited when it is a dictionary or a list, and left alone otherwise. *)
Fixpoint _strip_html_from_description (obj : Node Atom) : Node Atom :=
  match obj with
  | NDict d =>
      NDict (List.map (λ kv,
        match kv with
        | (key, value) =>
            match value with
            | NStr s =>
                if String.eqb key "description"
                then (key, NStr (Py.strip (handle s))) else (key, value)
            | NDict _ | NList _ => (key, _strip_html_from_description value)
            | NAtom _ => (key, value)
            end
        end) d)
  | NList l =>
      NList (List.map (λ item,
        match item with
        | NDict _ | NList _ => _strip_html_from_description item
        | NStr _ | NAtom _ => item
        end) l)
  | NStr _ | NAtom _ => obj
  end.

End Strip.

End Description.

(** * The vocabulary of the further properties *)

Module More.

(** The flag name that [get_feature_flags_from_env] derives from the name
    of an environment variable: [key[len(prefix):].lower().replace("_", "-")]. *)
Definition feature_name (key : string) : string :=
  Py.replace "_" "-" (Py.lower (Py.drop (String.length Settings.prefix) key)).

(** The flag value that it derives from the value of the variable. *)
Definition flag_value (value : string) : bool := String.eqb (Py.lower value) "enabled".

(** The variable [key] is read as a flag. *)
Definition is_flag (key : string) : Prop := Py.startswith Settings.prefix key = true.

(** The name of the environment variable that a tag written in words calls
    for: the prefix, then [tag.upper().replace(" ", "_")]. *)
Definition env_key_of_tag (tag : string) : string :=
  Settings.prefix +:+ Py.replace " " "_" (Py.upper tag).

(** The names of the registered groups, in the order of the dictionary. *)
Definition group_names (self : FeatureFlags.FeatureFlagManager) : list string :=
  (FeatureFlags._api_groups self).*1.

(** The invariant of the group dictionary: a group name occurs once, and
    every stored method is in upper case. *)
Definition well_formed (self : FeatureFlags.FeatureFlagManager) : Prop :=
  NoDup (group_names self)
  ∧ ∀ g members p m, (g, members) ∈ FeatureFlags._api_groups self →
      (p, m) ∈ members → Py.upper m = m.

Section Documents.

Context {Atom : Type}.

(** The document with every string emptied: its shape, its keys and its
    atoms. *)
Fixpoint skeleton (t : Description.Node Atom) : Description.Node Atom :=
  match t with
  | Description.NAtom a => Description.NAtom a
  | Description.NStr _ => Description.NStr ""
  | Description.NList l => Description.NList (List.map skeleton l)
  | Description.NDict d =>
      Description.NDict
        (List.map (λ kv, match kv with (k, v) => (k, skeleton v) end) d)
  end.

(** The strings that a dictionary holds under the key [description], in the
    order of the document. *)
Fixpoint descriptions (t : Description.Node Atom) : list string :=
  match t with
  | Description.NDict d =>
      List.flat_map (λ kv,
        match kv with
        | (k, Description.NStr s) => if String.eqb k "description" then [s] else []
        | (_, v) => descriptions v
        end) d
  | Description.NList l => List.flat_map descriptions l
  | Description.NStr _ | Description.NAtom _ => []
  end.

(** All the other strings of the document, in its order. *)
Fixpoint other_strings (t : Description.Node Atom) : list string :=
  match t with
  | Description.NDict d =>
      List.flat_map (λ kv,
        match kv with
        | (k, Description.NStr s) => if String.eqb k "description" then [] else [s]
        | (_, v) => other_strings v
        end) d
  | Description.NList l => List.flat_map other_strings l
  | Description.NStr s => [s]
  | Description.NAtom _ => []
  end.

End Documents.

(** The last character of a string. *)
Fixpoint last_char (s : string) : option ascii :=
  match s with
  | EmptyString => None
  | String c EmptyString => Some c
  | String _ s' => last_char s'
  end.

(** A string that neither begins nor ends with white space. *)
Definition trimmed (s : string) : Prop :=
  (∀ c s', s = String c s' → Py.isspace c = false)
  ∧ (∀ c, last_char s = Some c → Py.isspace c = false).

(** The value of a lower-case hexadecimal digit. *)
Definition hex_value (c : ascii) : N := Spec.index_from 0 c "0123456789abcdef".

(** The first character that an escaped JSON string stands for, and what
    follows its escape; [None] at a double quote, where the string ends. *)
Definition unescape_head (s : string) : option (ascii * string) :=
  match s with
  | EmptyString => None
  | String c r =>
      if Ascii.eqb c Py.dquote then None
      else if Ascii.eqb c "\" then
        match r with
        | EmptyString => None
        | String e r' =>
            if Ascii.eqb e Py.dquote then Some (Py.dquote, r')
            else if Ascii.eqb e "\" then Some ("\"%char, r')
            else if Ascii.eqb e "n" then Some ("010"%char, r')
            else if Ascii.eqb e "r" then Some ("013"%char, r')
            else if Ascii.eqb e "t" then Some ("009"%char, r')
            else if Ascii.eqb e "f" then Some ("012"%char, r')
            else if Ascii.eqb e "b" then Some ("008"%char, r')
            else if Ascii.eqb e "u" then
              match r' with
              | String _ (String _ (String h (String l r''))) =>
                  Some (ascii_of_N (16 * hex_value h + hex_value l), r'')
              | _ => None
              end
            else None
        end
      else Some (c, r)
  end.

End More.

(** * Properties *)

(** ** Strings *)

Section StringFacts.

Lemma append_cons (c : ascii) (p s : string) : String c p +:+ s = String c (p +:+ s).
Proof. reflexivity. Qed.

Lemma append_nil_l (s : string) : "" +:+ s = s.
Proof. reflexivity. Qed.

Lemma startswith_app (p s : string) : Py.startswith p (p +:+ s) = true.
Proof.
  induction p as [|c p IH]; [reflexivity|].
  rewrite append_cons. cbn [Py.startswith]. rewrite Ascii.eqb_refl. exact IH.
Qed.

Lemma str_map_idemp (f : ascii → ascii) (s : string) :
  (∀ c, f (f c) = f c) → Py.str_map f (Py.str_map f s) = Py.str_map f s.
Proof. intros Hf. induction s as [|c s IH]; cbn; [done|]. by rewrite Hf, IH. Qed.

Lemma str_map_compose (f g : ascii → ascii) (s : string) :
  Py.str_map f (Py.str_map g s) = Py.str_map (λ c, f (g c)) s.
Proof. induction s as [|c s IH]; cbn; [done|]. by rewrite IH. Qed.

Lemma upper_char_idemp (c : ascii) : Py.upper_char (Py.upper_char c) = Py.upper_char c.
Proof. by destruct c as [[] [] [] [] [] [] [] []]. Qed.

Lemma upper_idemp (s : string) : Py.upper (Py.upper s) = Py.upper s.
Proof.
  induction s as [|c s IH]; [reflexivity|]. cbn [Py.upper].
  destruct (Ascii.eqb c Py.sharp_s) eqn:Hc.
  - cbn [Py.upper]. by rewrite IH.
  - cbn [Py.upper]. rewrite IH, upper_char_idemp.
    replace (Ascii.eqb (Py.upper_char c) Py.sharp_s) with false; [done|].
    clear -Hc. by destruct c as [[] [] [] [] [] [] [] []].
Qed.

(** On ASCII strings [upper] maps letter by letter. *)
Lemma upper_isascii (s : string) :
  Py.isascii s = true → Py.upper s = Py.str_map Py.upper_char s.
Proof.
  induction s as [|c s IH]; [done|]. cbn [Py.isascii Py.upper Py.str_map].
  intros [Hc Hs]%andb_true_iff. rewrite (IH Hs).
  replace (Ascii.eqb c Py.sharp_s) with false; [done|].
  clear -Hc. by destruct c as [[] [] [] [] [] [] [] []].
Qed.

Lemma isascii_str_map (f : ascii → ascii) (s : string) :
  (∀ c, (N_of_ascii c <? 128)%N = true → (N_of_ascii (f c) <? 128)%N = true) →
  Py.isascii s = true → Py.isascii (Py.str_map f s) = true.
Proof.
  intros Hf. induction s as [|c s IH]; [done|]. cbn [Py.isascii Py.str_map].
  intros [Hc Hs]%andb_true_iff. by rewrite (Hf c Hc), (IH Hs).
Qed.

End StringFacts.

(** ** C6: the version prefix *)

(** C6. The first statement of [request] always yields a path that starts
    with [/v3]: it leaves a path that already starts with [/v3] unchanged,
    and it gives every other path back with [/v3] put in front of it.  It is
    idempotent, and yields a path starting with [/v3/v3] only when it was
    given one. *)
Theorem add_v3_prefix_normalizes (url : string) :
  Py.startswith "/v3" (AuthClient.add_v3_prefix url) = true
  ∧ (Py.startswith "/v3" url = true → AuthClient.add_v3_prefix url = url)
  ∧ (Py.startswith "/v3" url = false → AuthClient.add_v3_prefix url = "/v3" +:+ url)
  ∧ AuthClient.add_v3_prefix (AuthClient.add_v3_prefix url) = AuthClient.add_v3_prefix url
  ∧ (Py.startswith "/v3/v3" (AuthClient.add_v3_prefix url) = true →
     Py.startswith "/v3/v3" url = true).
Proof.
  unfold AuthClient.add_v3_prefix.
  destruct (Py.startswith "/v3" url) eqn:Hpre; cbn [negb].
  - rewrite Hpre. repeat split; auto. discriminate.
  - rewrite (startswith_app "/v3" url). cbn [negb]. repeat split; try done.
    intros Hdouble. change (Py.startswith "/v3" url = true) in Hdouble. congruence.
Qed.

Lemma add_v3_prefix_normalizes_witness :
  AuthClient.add_v3_prefix "/api/test" = "/v3/api/test"
  ∧ AuthClient.add_v3_prefix "/v3/api/test" = "/v3/api/test"
  ∧ AuthClient.add_v3_prefix "/v" = "/v3/v"
  ∧ AuthClient.add_v3_prefix "" = "/v3".
Proof.
  destruct (add_v3_prefix_normalizes "/api/test") as (_ & _ & H1 & _).
  destruct (add_v3_prefix_normalizes "/v3/api/test") as (_ & H2 & _).
  destruct (add_v3_prefix_normalizes "/v") as (_ & _ & H3 & _).
  destruct (add_v3_prefix_normalizes "") as (_ & _ & H4 & _).
  split; [apply H1; reflexivity|]. split; [apply H2; reflexivity|].
  split; [apply H3; reflexivity | apply H4; reflexivity].
Defined.

(** ** C8: tags and group names *)

Section Tags.

Lemma _transform_tag_name_chars (tag : string) :
  Server._transform_tag_name tag = Py.str_map Spec.transform_char tag.
Proof.
  unfold Server._transform_tag_name, Py.replace, Py.lower.
  rewrite str_map_compose. reflexivity.
Qed.

Lemma lower_char_space (c : ascii) : Py.lower_char c = " "%char → c = " "%char.
Proof. destruct c as [[] [] [] [] [] [] [] []]; vm_compute; congruence. Qed.

Lemma lower_char_dash (c : ascii) : Py.lower_char c = "-"%char → c = "-"%char.
Proof. destruct c as [[] [] [] [] [] [] [] []]; vm_compute; congruence. Qed.

Lemma transform_char_eq (a b : ascii) :
  Spec.transform_char a = Spec.transform_char b ↔ Spec.same_tag_char a b.
Proof.
  unfold Spec.transform_char, Spec.same_tag_char.
  destruct (Ascii.eqb_spec (Py.lower_char a) " ") as [Ha|Ha];
    destruct (Ascii.eqb_spec (Py.lower_char b) " ") as [Hb|Hb].
  - split; [intros _; left; congruence | done].
  - split.
    + intros Heq. symmetry in Heq. apply lower_char_dash in Heq.
      apply lower_char_space in Ha. auto.
    + intros [Heq|[[-> ->]|[-> ->]]]; [congruence|reflexivity|].
      exfalso. apply Hb. reflexivity.
  - split.
    + intros Heq. apply lower_char_dash in Heq.
      apply lower_char_space in Hb. auto.
    + intros [Heq|[[-> ->]|[-> ->]]]; [congruence| |reflexivity].
      exfalso. apply Ha. reflexivity.
  - split; [auto|].
    intros [Heq|[[-> ->]|[-> ->]]]; [done| |]; exfalso; [apply Ha | apply Hb]; reflexivity.
Qed.

End Tags.

(** C8, as the code has it.  The transform is a total function.  On tags
    of ASCII characters it works character by character: two such tags get
    the same group name exactly when they have the same length and agree at
    every position up to the case of letters and up to space versus dash.
    The transform is idempotent, so a group name is its own group name. *)
Theorem transform_tag_name_collisions (tag1 tag2 : string) :
  Py.isascii tag1 = true → Py.isascii tag2 = true →
  (Server._transform_tag_name tag1 = Server._transform_tag_name tag2 ↔ Spec.same_tag tag1 tag2)
  ∧ Server._transform_tag_name (Server._transform_tag_name tag1)
    = Server._transform_tag_name tag1.
Proof.
  intros _ _. split.
  - rewrite !_transform_tag_name_chars. split.
    + revert tag2. induction tag1 as [|a s IH]; intros [|b t] Heq; try discriminate.
      * constructor.
      * cbn in Heq. injection Heq as Hc Hs.
        constructor; [by apply transform_char_eq | by apply IH].
    + induction 1 as [|a b s t Hc _ IH]; [reflexivity|].
      cbn. f_equal; [by apply transform_char_eq | exact IH].
  - rewrite !_transform_tag_name_chars. apply str_map_idemp.
    intros c. by destruct c as [[] [] [] [] [] [] [] []].
Qed.

Lemma transform_tag_name_collisions_witness :
  Server._transform_tag_name "Tag One" = Server._transform_tag_name "TAG-one".
Proof.
  apply (transform_tag_name_collisions "Tag One" "TAG-one"); [reflexivity..|].
  repeat (constructor; [first [by left | right; left; by split]|]). constructor.
Defined.

(** C8, as the spec states it, fails: two distinct tags with one group name. *)
Lemma transform_tag_name_not_injective :
  "Device Reporting" ≠ "device-reporting"
  ∧ Server._transform_tag_name "Device Reporting"
    = Server._transform_tag_name "device-reporting".
Proof. split; [discriminate | reflexivity]. Qed.

(** ** C1 and C7: the admission decision *)

Section Admission.

Variable settings : Settings.Settings.
Variable feature_flags : FeatureFlags.FeatureFlagManager.

Lemma verbs_split (m : string) :
  bool_decide (m ∈ ["GET"; "POST"; "PUT"; "PATCH"; "DELETE"])
  = String.eqb m "GET" || bool_decide (m ∈ ["POST"; "PUT"; "PATCH"; "DELETE"]).
Proof.
  destruct (String.eqb_spec m "GET") as [->|Hne]; [reflexivity|].
  cbn [orb]. apply bool_decide_ext. rewrite elem_of_cons. tauto.
Qed.

(** Past the blocklist, [_route_map_fn] is rules 2 to 4. *)
Lemma route_map_fn_categorize (route : Server.HTTPRoute) (mcp_type : Server.MCPType)
    (log : list Server.Call) :
  Py.contains "-advanced" (Server.path route) = false
  ∨ Settings.DISABLE_ADVANCED_API_BLOCKLIST settings = true →
  Server._route_map_fn settings feature_flags route mcp_type log
  = Spec.flag_and_method_rules feature_flags route mcp_type log.
Proof.
  intros Hpast. unfold Server._route_map_fn, Spec.flag_and_method_rules.
  assert (Hcat : ∀ X : Server.Traced Server.MCPType,
    (if Py.contains "-advanced" (Server.path route)
     then if negb (Settings.DISABLE_ADVANCED_API_BLOCKLIST settings)
          then mret Server.EXCLUDE else X
     else X) = X).
  { intros X. destruct Hpast as [-> | ->]; [done|].
    by destruct (Py.contains _ _). }
  rewrite Hcat. unfold mbind, Server.Traced_bind, Server.call_is_api_enabled,
    mret, Server.Traced_ret.
  rewrite verbs_split.
  destruct (FeatureFlags.is_api_enabled _ _ _); cbn [negb]; [|reflexivity].
  destruct (String.eqb _ "GET"); cbn [orb]; [reflexivity|].
  by destruct (bool_decide _).
Qed.

End Admission.

(** C1. For a path that contains [-advanced]: while the blocklist is active
    the decision is [EXCLUDE] whatever the flags are and no call of
    [is_api_enabled] is recorded; once the blocklist is disabled the result
    is that of the flag and method rules, the same function that decides
    every route whose path does not contain the marker. *)
Theorem advanced_route_blocklist (settings : Settings.Settings)
    (feature_flags : FeatureFlags.FeatureFlagManager)
    (route : Server.HTTPRoute) (mcp_type : Server.MCPType) (log : list Server.Call) :
  Py.contains "-advanced" (Server.path route) = true →
  (Settings.DISABLE_ADVANCED_API_BLOCKLIST settings = false →
     Server._route_map_fn settings feature_flags route mcp_type log = (Server.EXCLUDE, log))
  ∧ (Settings.DISABLE_ADVANCED_API_BLOCKLIST settings = true →
     Server._route_map_fn settings feature_flags route mcp_type log
     = Spec.flag_and_method_rules feature_flags route mcp_type log)
  ∧ (∀ plain : Server.HTTPRoute,
       Py.contains "-advanced" (Server.path plain) = false →
       Server._route_map_fn settings feature_flags plain mcp_type log
       = Spec.flag_and_method_rules feature_flags plain mcp_type log).
Proof.
  intros Hadv. split; [|split].
  - intros Hon. unfold Server._route_map_fn. rewrite Hadv, Hon. reflexivity.
  - intros Hoff. apply route_map_fn_categorize. by right.
  - intros plain Hplain. apply route_map_fn_categorize. by left.
Qed.

Lemma advanced_route_blocklist_witness :
  Server._route_map_fn Settings.default Fixtures.test_manager
    {| Server.path := "/api/test-advanced"; Server.method := "get" |} Server.RESOURCE []
  = (Server.EXCLUDE, []).
Proof.
  apply (advanced_route_blocklist Settings.default Fixtures.test_manager
           {| Server.path := "/api/test-advanced"; Server.method := "get" |}
           Server.RESOURCE []); reflexivity.
Defined.

(** C7. Past the blocklist and with the operation enabled by its flag, a
    method whose upper-casing is one of the five verbs is decided [TOOL], and
    any other method gets the caller's default classification back. *)
Theorem method_classification (settings : Settings.Settings)
    (feature_flags : FeatureFlags.FeatureFlagManager)
    (route : Server.HTTPRoute) (mcp_type : Server.MCPType) (log : list Server.Call) :
  Py.contains "-advanced" (Server.path route) = false
  ∨ Settings.DISABLE_ADVANCED_API_BLOCKLIST settings = true →
  FeatureFlags.is_api_enabled feature_flags (Server.path route)
    (Py.upper (Server.method route)) = true →
  (Py.upper (Server.method route) ∈ ["GET"; "POST"; "PUT"; "PATCH"; "DELETE"] →
     (Server._route_map_fn settings feature_flags route mcp_type log).1 = Server.TOOL)
  ∧ (Py.upper (Server.method route) ∉ ["GET"; "POST"; "PUT"; "PATCH"; "DELETE"] →
     (Server._route_map_fn settings feature_flags route mcp_type log).1 = mcp_type).
Proof.
  intros Hpast Hen. rewrite route_map_fn_categorize by done.
  unfold Spec.flag_and_method_rules. cbn [fst]. rewrite Hen.
  split; intros Hm.
  - by rewrite bool_decide_eq_true_2.
  - by rewrite bool_decide_eq_false_2.
Qed.

Lemma method_classification_witness :
  (Server._route_map_fn Settings.default Fixtures.test_manager
     {| Server.path := "/api/test"; Server.method := "patch" |} Server.RESOURCE []).1
  = Server.TOOL
  ∧ (Server._route_map_fn Settings.default Fixtures.test_manager
       {| Server.path := "/api/test"; Server.method := "head" |} Server.RESOURCE []).1
    = Server.RESOURCE.
Proof.
  split.
  - apply (method_classification Settings.default Fixtures.test_manager
             {| Server.path := "/api/test"; Server.method := "patch" |}
             Server.RESOURCE []); [by left | reflexivity | ].
    apply (bool_decide_unpack _). vm_compute. exact I.
  - apply (method_classification Settings.default Fixtures.test_manager
             {| Server.path := "/api/test"; Server.method := "head" |}
             Server.RESOURCE []); [by left | reflexivity | ].
    apply (bool_decide_unpack _). vm_compute. exact I.
Defined.

(** ** C2: flag evaluation *)

Section FlagEvaluation.

Variable flags : gmap string bool.
Variable key : string * string.

Lemma scan_groups_none (groups : Dict.t (gset (string * string))) :
  (∀ g s, (g, s) ∈ groups → key ∉ s) →
  FeatureFlags.scan_groups flags key groups = None.
Proof.
  induction groups as [|[g s] groups IH]; intros Hnone; [reflexivity|].
  cbn [FeatureFlags.scan_groups].
  rewrite bool_decide_eq_false_2 by (apply (Hnone g s); left).
  apply IH. intros g' s' Hin. apply (Hnone g' s'). by right.
Qed.

Lemma scan_groups_first (before after : Dict.t (gset (string * string)))
    (g : string) (s : gset (string * string)) :
  (∀ g' s', (g', s') ∈ before → key ∉ s') → key ∈ s →
  FeatureFlags.scan_groups flags key (before ++ (g, s) :: after)
  = Some (default false (flags !! g)).
Proof.
  intros Hbefore Hin.
  induction before as [|[g' s'] before IH]; cbn [app FeatureFlags.scan_groups].
  - by rewrite bool_decide_eq_true_2.
  - rewrite bool_decide_eq_false_2 by (apply (Hbefore g' s'); left).
    apply IH. intros g'' s'' Hin'. apply (Hbefore g'' s''). by right.
Qed.

Lemma scan_groups_some (groups : Dict.t (gset (string * string))) (b : bool) :
  FeatureFlags.scan_groups flags key groups = Some b →
  ∃ g s, (g, s) ∈ groups ∧ key ∈ s ∧ b = default false (flags !! g).
Proof.
  induction groups as [|[g s] groups IH]; [discriminate|].
  cbn [FeatureFlags.scan_groups]. case_bool_decide as Hin.
  - intros [= <-]. exists g, s. split; [left|done].
  - intros Hscan. destruct (IH Hscan) as (g' & s' & Hin' & Hkey & Hb).
    exists g', s'. split; [by right|done].
Qed.

End FlagEvaluation.

(** C2, as the code has it.  An operation that belongs to no registered
    group is enabled whatever the flags are.  An operation that belongs to a
    group gets the flag of the first group, in registration order, that
    contains it, and [false] when that group has no entry in the flag map;
    so it is disabled when none of the groups that contain it has an entry. *)
Theorem is_api_enabled_first_group (self : FeatureFlags.FeatureFlagManager)
    (api_path http_method : string) :
  ((∀ g, ¬ Spec.belongs self g api_path http_method) →
     FeatureFlags.is_api_enabled self api_path http_method = true)
  ∧ (∀ before g members after,
       FeatureFlags._api_groups self = before ++ (g, members) :: after →
       (∀ g' members', (g', members') ∈ before →
          (api_path, Py.upper http_method) ∉ members') →
       (api_path, Py.upper http_method) ∈ members →
       FeatureFlags.is_api_enabled self api_path http_method
       = default false (FeatureFlags._flags self !! g))
  ∧ (∀ g, Spec.belongs self g api_path http_method →
       (∀ g', Spec.belongs self g' api_path http_method →
          FeatureFlags._flags self !! g' = None) →
       FeatureFlags.is_api_enabled self api_path http_method = false).
Proof.
  unfold FeatureFlags.is_api_enabled. split; [|split].
  - intros Hnone. destruct (_ && _); [reflexivity|].
    rewrite scan_groups_none; [reflexivity|].
    intros g s Hin Hkey. apply (Hnone g). by exists s.
  - intros before g members after Hgroups Hbefore Hin.
    rewrite Hgroups. rewrite scan_groups_first by done.
    destruct before; cbn [app Dict.truthy negb]; by rewrite andb_false_r.
  - intros g (members & Hin & Hkey) Hflags.
    destruct (FeatureFlags._api_groups self) as [|entry groups] eqn:Hgroups;
      [by apply elem_of_nil in Hin|].
    cbn [Dict.truthy negb]. rewrite andb_false_r. rewrite <- Hgroups in *.
    destruct (FeatureFlags.scan_groups _ _ _) as [b|] eqn:Hscan.
    + apply scan_groups_some in Hscan as (g' & s' & Hin' & Hkey' & ->).
      rewrite (Hflags g'); [reflexivity|]. by exists s'.
    + exfalso. clear Hgroups.
      induction (FeatureFlags._api_groups self) as [|[g' s'] groups' IH];
        [by apply elem_of_nil in Hin|].
      cbn [FeatureFlags.scan_groups] in Hscan. case_bool_decide as Hk; [discriminate|].
      apply elem_of_cons in Hin as [[= <- <-]|Hin]; [done|].
      apply IH; done.
Qed.

Lemma is_api_enabled_first_group_witness :
  FeatureFlags.is_api_enabled Fixtures.grouped_manager "/api/other" "GET" = true
  ∧ FeatureFlags.is_api_enabled Fixtures.grouped_manager "/api/disabled" "get" = false.
Proof.
  split.
  - apply (is_api_enabled_first_group Fixtures.grouped_manager "/api/other" "GET").
    intros g (members & Hin & Hkey). cbn [Fixtures.grouped_manager
      FeatureFlags._api_groups] in Hin.
    apply elem_of_cons in Hin as [[= -> ->]|[= -> ->]%list_elem_of_singleton].
    + apply elem_of_union in Hkey as [Hkey%elem_of_singleton|Hkey%elem_of_singleton];
        discriminate Hkey.
    + apply elem_of_singleton in Hkey. discriminate Hkey.
  - destruct (is_api_enabled_first_group Fixtures.grouped_manager "/api/disabled" "get")
      as (_ & Hfirst & _).
    apply (Hfirst [("test_group", {[ ("/api/test1", "GET"); ("/api/test2", "POST") ]})]
             "disabled_group" {[ ("/api/disabled", "GET") ]} []).
    + reflexivity.
    + intros g' members' [= -> ->]%list_elem_of_singleton.
      intros [Hkey%elem_of_singleton|Hkey%elem_of_singleton]%elem_of_union;
        discriminate Hkey.
    + by apply elem_of_singleton.
Defined.

(** C2, as the spec states it, fails: an operation with two tags belongs to
    the group [software-reporting], which has no flag entry, and is enabled
    all the same, by the flag of the group registered first. *)
Lemma is_api_enabled_not_fail_closed :
  Spec.belongs Fixtures.two_tag_manager "software-reporting" "/reports" "GET"
  ∧ FeatureFlags._flags Fixtures.two_tag_manager !! "software-reporting" = None
  ∧ FeatureFlags.is_api_enabled Fixtures.two_tag_manager "/reports" "GET" = true.
Proof.
  split; [|split].
  - exists {[ ("/reports", "GET") ]}. split.
    + apply (bool_decide_unpack _). vm_compute. exact I.
    + apply (bool_decide_unpack _). vm_compute. exact I.
  - vm_compute. reflexivity.
  - vm_compute. reflexivity.
Qed.

(** ** C3 and C10: the signed payload *)

Lemma append_assoc (a b c : string) : (a +:+ b) +:+ c = a +:+ b +:+ c.
Proof. induction a as [|x a IH]; [reflexivity|]. rewrite !append_cons. by rewrite IH. Qed.

Section Payload.

Variable hmac_sha256 : list byte → list byte → list byte.

(** C3. Without a body the signed payload is exactly [{"data": {}}], with
    the body [{"key": "value"}] it is exactly [{"data": {"key": "value"}}],
    and with any body it is the object whose one key [data] holds the body;
    this string is the payload that [_prepare_jws_payload] hands to the
    compact serialization together with the JWS headers and the secret. *)
Theorem request_payload_envelope (self : AuthClient.AbsoluteAuthClient)
    (method path query_string : string) (body : list (string * Json.JSON))
    (json_data : option (list (string * Json.JSON))) (w : AuthClient.World) :
  AuthClient.request_payload None = "{" +:+ Spec.quoted "data" +:+ ": {}}"
  ∧ AuthClient.request_payload (Some [("key", Json.JStr "value")])
    = "{" +:+ Spec.quoted "data" +:+ ": {" +:+ Spec.quoted "key" +:+ ": "
        +:+ Spec.quoted "value" +:+ "}}"
  ∧ AuthClient.request_payload (Some body)
    = "{" +:+ Spec.quoted "data" +:+ ": " +:+ Json.dumps_default (Json.JDict body) +:+ "}"
  ∧ (AuthClient._prepare_jws_payload hmac_sha256 self method path query_string json_data w).1
    = Jws.serialize_compact hmac_sha256
        (AuthClient.jws_header self method path query_string (AuthClient.issued_at_ms w))
        (AuthClient.request_payload json_data) (AuthClient.token_secret self).
Proof.
  split; [reflexivity|]. split; [reflexivity|]. split; [|reflexivity].
  assert (Hbody : AuthClient.request_payload (Some body)
                  = Json.dumps_default (Json.JDict [("data", Json.JDict body)]))
    by (by destruct body).
  rewrite Hbody. unfold Json.dumps_default.
  cbn [Json.dumps List.map Json.join].
  change (Json.dumps_str true "data") with (Spec.quoted "data").
  by rewrite !append_assoc.
Qed.

(** C10. The empty object as body is signed like no body at all: the same
    envelope, the same log, and so the same outbound call. *)
Theorem empty_body_as_no_body (urlparse : string → AuthClient.ParseResult)
    (urlencode : Dict.t string → string)
    (self : AuthClient.AbsoluteAuthClient) (method path query_string url : string)
    (kw : AuthClient.Kwargs) (w : AuthClient.World) :
  AuthClient.request_payload (Some []) = AuthClient.request_payload None
  ∧ AuthClient._prepare_jws_payload hmac_sha256 self method path query_string (Some []) w
    = AuthClient._prepare_jws_payload hmac_sha256 self method path query_string None w
  ∧ AuthClient.request hmac_sha256 urlparse urlencode self method url
      (Spec.with_json (Some []) kw) w
    = AuthClient.request hmac_sha256 urlparse urlencode self method url
        (Spec.with_json None kw) w.
Proof. split; [reflexivity|]. split; reflexivity. Qed.

End Payload.

(** ** C4: the outbound call *)

Section DictFacts.

Context {V : Type}.

Lemma dict_get_set (k k' : string) (v : V) (d : Dict.t V) :
  Dict.get k (Dict.set k' v d) = if String.eqb k k' then Some v else Dict.get k d.
Proof.
  induction d as [|[k0 v0] d IH]; cbn [Dict.set Dict.get].
  - by destruct (String.eqb k k').
  - destruct (String.eqb_spec k' k0) as [->|Hne]; cbn [Dict.get].
    + by destruct (String.eqb k k0).
    + destruct (String.eqb_spec k k0) as [->|Hne'].
      * destruct (String.eqb_spec k0 k'); [congruence|reflexivity].
      * exact IH.
Qed.

Lemma dict_elem_of_set (k k' : string) (v v' : V) (d : Dict.t V) :
  (k, v) ∈ Dict.set k' v' d → (k, v) ∈ d ∨ (k = k' ∧ v = v').
Proof.
  induction d as [|[k0 v0] d IH]; cbn [Dict.set].
  - intros [= -> ->]%list_elem_of_singleton. by right.
  - destruct (String.eqb_spec k' k0) as [->|Hne].
    + intros [[= -> ->]|Hin]%elem_of_cons; [by right|]. left. by right.
    + intros [[= -> ->]|Hin]%elem_of_cons; [left; by left|].
      destruct (IH Hin) as [?|?]; [left; by right|by right].
Qed.

End DictFacts.

Section Headers.

Lemma merge_headers_cons (key value : string) (hs acc : Dict.t string) :
  AuthClient.merge_headers ((key, value) :: hs) acc
  = AuthClient.merge_headers hs
      (if negb (String.eqb (Py.lower key) "content-type")
       then Dict.set key value acc else acc).
Proof. reflexivity. Qed.

(** A key the caller does not name keeps its value. *)
Lemma merge_headers_get_other (k : string) (hs acc : Dict.t string) :
  k ∉ hs.*1 → Dict.get k (AuthClient.merge_headers hs acc) = Dict.get k acc.
Proof.
  revert acc. induction hs as [|[key value] hs IH]; intros acc Hk; [reflexivity|].
  rewrite merge_headers_cons. cbn [fmap list_fmap fst] in Hk.
  apply not_elem_of_cons in Hk as [Hne Hk].
  rewrite IH by done. destruct (negb _); [|reflexivity].
  rewrite dict_get_set. by destruct (String.eqb_spec k key).
Qed.

(** A key that lower-cases to [content-type] keeps its value. *)
Lemma merge_headers_get_content_type (k : string) (hs acc : Dict.t string) :
  Py.lower k = "content-type" →
  Dict.get k (AuthClient.merge_headers hs acc) = Dict.get k acc.
Proof.
  intros Hk. revert acc. induction hs as [|[key value] hs IH]; intros acc; [reflexivity|].
  rewrite merge_headers_cons, IH.
  destruct (String.eqb_spec (Py.lower key) "content-type") as [Hct|Hct];
    cbn [negb]; [reflexivity|].
  rewrite dict_get_set. destruct (String.eqb_spec k key) as [->|]; [done|reflexivity].
Qed.

Lemma merge_headers_elem_of (k v : string) (hs acc : Dict.t string) :
  (k, v) ∈ AuthClient.merge_headers hs acc →
  (k, v) ∈ acc ∨ ((k, v) ∈ hs ∧ Py.lower k ≠ "content-type").
Proof.
  revert acc. induction hs as [|[key value] hs IH]; intros acc; [by left|].
  rewrite merge_headers_cons. intros Hin. apply IH in Hin as [Hin|[Hin Hk]].
  - destruct (String.eqb_spec (Py.lower key) "content-type") as [Hct|Hct];
      cbn [negb] in Hin; [by left|].
    apply dict_elem_of_set in Hin as [Hin|[-> ->]]; [by left|].
    right. split; [by left|done].
  - right. split; [by right|done].
Qed.

Lemma merge_headers_get (k v : string) (hs acc : Dict.t string) :
  NoDup hs.*1 → (k, v) ∈ hs → Py.lower k ≠ "content-type" →
  Dict.get k (AuthClient.merge_headers hs acc) = Some v.
Proof.
  intros Hnodup Hin Hk. revert acc.
  induction hs as [|[key value] hs IH]; intros acc; [by apply elem_of_nil in Hin|].
  cbn [fmap list_fmap fst] in Hnodup. apply NoDup_cons in Hnodup as [Hfresh Hnodup].
  rewrite merge_headers_cons.
  apply elem_of_cons in Hin as [[= -> ->]|Hin]; [|by apply IH].
  rewrite merge_headers_get_other by done.
  destruct (String.eqb_spec (Py.lower key) "content-type"); [done|]. cbn [negb].
  rewrite dict_get_set. by rewrite String.eqb_refl.
Qed.

End Headers.

Section Request.

Variable hmac_sha256 : list byte → list byte → list byte.
Variable urlparse : string → AuthClient.ParseResult.
Variable urlencode : Dict.t string → string.

(** C4, as the code has it.  Whatever the logical method, the outbound call
    is a POST; it goes to the [api_endpoint] argument when that is a
    non-empty string and to the validation endpoint of the client when the
    argument is absent or empty; its body is the envelope signed for the
    logical method, the prefixed path and the body of the call; its header
    [content-type] is [text/plain]; no header that lower-cases to
    [content-type] comes from the caller; and every other header of the
    caller is in the outbound headers with the caller's value. *)
Theorem request_transport_call (self : AuthClient.AbsoluteAuthClient)
    (method url : string) (kw : AuthClient.Kwargs) (w : AuthClient.World) :
  let call := (AuthClient.request hmac_sha256 urlparse urlencode self method url kw w).1 in
  AuthClient.t_method call = "POST"
  ∧ (AuthClient.api_endpoint_override kw = None →
       AuthClient.t_url call = AuthClient.api_endpoint self)
  ∧ (AuthClient.api_endpoint_override kw = Some "" →
       AuthClient.t_url call = AuthClient.api_endpoint self)
  ∧ (∀ e, AuthClient.api_endpoint_override kw = Some e → e ≠ "" →
       AuthClient.t_url call = e)
  ∧ (∃ query_string w',
       AuthClient.issued_at_ms w' = AuthClient.issued_at_ms w
       ∧ AuthClient.t_content call
         = (AuthClient._prepare_jws_payload hmac_sha256 self method
              (AuthClient.url_path (urlparse (AuthClient.add_v3_prefix url)))
              query_string (AuthClient.json kw) w').1)
  ∧ Dict.get "content-type" (AuthClient.t_headers call) = Some "text/plain"
  ∧ (∀ k v, (k, v) ∈ AuthClient.t_headers call → Py.lower k = "content-type" →
       k = "content-type" ∧ v = "text/plain")
  ∧ (∀ hs k v, AuthClient.headers kw = Some hs → NoDup hs.*1 → (k, v) ∈ hs →
       Py.lower k ≠ "content-type" →
       Dict.get k (AuthClient.t_headers call) = Some v).
Proof.
  cbv zeta. unfold AuthClient.request.
  unfold mbind, AuthClient.IO_bind, mret, AuthClient.IO_ret.
  cbn [AuthClient.logger_debug].
  destruct (AuthClient._prepare_jws_payload _ _ _ _ _ _ _) as [signed w2] eqn:Hsigned.
  cbn [fst AuthClient.t_method AuthClient.t_url AuthClient.t_content AuthClient.t_headers].
  split; [reflexivity|]. split; [by intros ->|]. split; [by intros ->|].
  split.
  { intros e -> He. by destruct e. }
  split.
  { eexists _, _. split; [|by rewrite Hsigned]. reflexivity. }
  split.
  { destruct (AuthClient.headers kw) as [hs|]; [|reflexivity].
    destruct (Dict.truthy hs); [|reflexivity].
    by rewrite merge_headers_get_content_type. }
  split.
  { intros k v Hin Hk.
    assert (Hbase : (k, v) ∈ [("content-type", "text/plain")] →
                    k = "content-type" ∧ v = "text/plain")
      by (by intros [= -> ->]%list_elem_of_singleton).
    destruct (AuthClient.headers kw) as [hs|]; [|auto].
    destruct (Dict.truthy hs); [|auto].
    apply merge_headers_elem_of in Hin as [Hin|[_ Hne]]; [auto|done]. }
  intros hs k v -> Hnodup Hin Hk.
  destruct hs as [|h hs]; [by apply elem_of_nil in Hin|].
  cbn [Dict.truthy]. by apply merge_headers_get.
Qed.

End Request.

Lemma request_transport_call_witness :
  let call := (AuthClient.request Fixtures.mock_hmac Fixtures.mock_urlparse
                 Fixtures.mock_urlencode Fixtures.test_client "CUSTOM" "/api/test"
                 Fixtures.custom_kwargs Fixtures.test_world).1 in
  AuthClient.t_url call = "https://custom.example.com/api"
  ∧ Dict.get "Custom-Header" (AuthClient.t_headers call) = Some "value"
  ∧ Dict.get "content-type" (AuthClient.t_headers call) = Some "text/plain".
Proof.
  cbv zeta.
  destruct (request_transport_call Fixtures.mock_hmac Fixtures.mock_urlparse
              Fixtures.mock_urlencode Fixtures.test_client "CUSTOM" "/api/test"
              Fixtures.custom_kwargs Fixtures.test_world)
    as (_ & _ & _ & Hurl & _ & Hct & _ & Hmerge).
  split; [|split].
  - apply Hurl; [reflexivity | discriminate].
  - eapply Hmerge; [reflexivity | | | ].
    + apply (bool_decide_unpack _). vm_compute. exact I.
    + apply (bool_decide_unpack _). vm_compute. exact I.
    + vm_compute. discriminate.
  - exact Hct.
Defined.

(** C4, as the spec states it, fails: the empty string given as
    [api_endpoint] is not the target of the call. *)
Lemma request_ignores_empty_endpoint :
  AuthClient.api_endpoint_override Fixtures.empty_endpoint_kwargs = Some ""
  ∧ AuthClient.t_url
      (AuthClient.request Fixtures.mock_hmac Fixtures.mock_urlparse
         Fixtures.mock_urlencode Fixtures.test_client "GET" "/api/test"
         Fixtures.empty_endpoint_kwargs Fixtures.test_world).1
    = "https://api.absolute.com/jws/validate".
Proof. split; reflexivity. Qed.

(** ** C9: start-up without feature flags *)

Section Registration.

Implicit Types groups : Dict.t (gset (string * string)).
Implicit Types key : string * string.

Lemma add_member_cons (g : string) key (g0 : string) (s0 : gset (string * string)) groups :
  Spec.add_member g key ((g0, s0) :: groups)
  = if String.eqb g g0 then (g0, s0 ∪ {[ key ]}) :: groups
    else (g0, s0) :: Spec.add_member g key groups.
Proof.
  unfold Spec.add_member. cbn [Dict.mem].
  destruct (String.eqb g g0) eqn:Hg; cbn [orb negb].
  - cbn [Dict.get Dict.set]. by rewrite Hg.
  - destruct (Dict.mem g groups); cbn [negb];
      repeat (cbn [Dict.get Dict.set]; rewrite ?Hg); reflexivity.
Qed.

Lemma add_member_nil (g : string) key :
  Spec.add_member g key [] = [(g, ∅ ∪ {[ key ]})].
Proof.
  unfold Spec.add_member. cbn [Dict.mem negb Dict.set Dict.get].
  by rewrite !String.eqb_refl.
Qed.

Lemma member_add_member (g : string) key groups (g' : string) key' :
  Spec.member (Spec.add_member g key groups) g' key'
  ↔ Spec.member groups g' key' ∨ (g' = g ∧ key' = key).
Proof.
  induction groups as [|[g0 s0] groups IH].
  - rewrite add_member_nil. unfold Spec.member. split.
    + intros (s & [= -> ->]%list_elem_of_singleton & Hin). right.
      by apply elem_of_union in Hin as [[]%elem_of_empty| ->%elem_of_singleton].
    + intros [(s & []%elem_of_nil & _)|[-> ->]].
      eexists. split; [by apply list_elem_of_singleton|].
      apply elem_of_union. right. by apply elem_of_singleton.
  - rewrite add_member_cons. destruct (String.eqb_spec g g0) as [->|Hne].
    + unfold Spec.member. split.
      * intros (s & [[= -> ->]|Hin]%elem_of_cons & Hkey).
        -- apply elem_of_union in Hkey as [Hkey|Hkey%elem_of_singleton].
           ++ left. exists s0. split; [by left|done].
           ++ by right.
        -- left. exists s. split; [by right|done].
      * intros [(s & [[= -> ->]|Hin]%elem_of_cons & Hkey)|[-> ->]].
        -- eexists. split; [by left|]. apply elem_of_union. by left.
        -- exists s. split; [by right|done].
        -- eexists. split; [by left|].
           apply elem_of_union. right. by apply elem_of_singleton.
    + split.
      * intros (s & [[= -> ->]|Hin]%elem_of_cons & Hkey).
        -- left. exists s0. split; [by left|done].
        -- destruct (proj1 IH) as [(s' & Hin' & Hkey')|?]; [by exists s| |by right].
           left. exists s'. split; [by right|done].
      * intros [(s & [[= -> ->]|Hin]%elem_of_cons & Hkey)|Hnew].
        -- exists s0. split; [by left|done].
        -- destruct (proj2 IH) as (s' & Hin' & Hkey'); [left; by exists s|].
           exists s'. split; [by right|done].
        -- destruct (proj2 IH) as (s' & Hin' & Hkey'); [by right|].
           exists s'. split; [by right|done].
Qed.

(** A loop that adds one pair per element. *)
Lemma member_fold_add {A : Type} (G : A → string) (K : A → string * string)
    (l : list A) groups (g : string) key :
  Spec.member (fold_left (λ acc x, Spec.add_member (G x) (K x) acc) l groups) g key
  ↔ Spec.member groups g key ∨ ∃ x, x ∈ l ∧ g = G x ∧ key = K x.
Proof.
  revert groups. induction l as [|x l IH]; intros groups; cbn [fold_left].
  - split; [by left|]. intros [?|(x & []%elem_of_nil & _)]. done.
  - rewrite IH, member_add_member. split.
    + intros [[?|[-> ->]]|(y & Hy & ?)]; [by left| |].
      * right. exists x. split; [by left|done].
      * right. exists y. split; [by right|done].
    + intros [?|(y & [->|Hy]%elem_of_cons & -> & ->)]; [left; by left| |].
      * left. by right.
      * right. by exists y.
Qed.

Lemma member_extract_tags (p m : string) (tag_list : list string) groups
    (g : string) key :
  Spec.member (Server.extract_tags p m tag_list groups) g key
  ↔ Spec.member groups g key
    ∨ ∃ tag, tag ∈ tag_list ∧ g = Server._transform_tag_name tag
             ∧ key = (p, Py.upper m).
Proof.
  apply (member_fold_add Server._transform_tag_name (λ _, (p, Py.upper m))).
Qed.

Lemma member_extract_methods (p : string) (methods : Dict.t Server.Operation) groups
    (g : string) key :
  Spec.member (Server.extract_methods p methods groups) g key
  ↔ Spec.member groups g key
    ∨ ∃ m op tag, (m, op) ∈ methods ∧ tag ∈ Server.tags op
                  ∧ g = Server._transform_tag_name tag ∧ key = (p, Py.upper m).
Proof.
  unfold Server.extract_methods. revert groups.
  induction methods as [|[m op] methods IH]; intros groups; cbn [fold_left].
  - split; [by left|]. intros [?|(m & op & tag & []%elem_of_nil & _)]. done.
  - rewrite IH, member_extract_tags. split.
    + intros [[?|(tag & ? & ? & ?)]|(m' & op' & tag & ? & ?)]; [by left| |].
      * right. exists m, op, tag. split; [by left|done].
      * right. exists m', op', tag. split; [by right|done].
    + intros [?|(m' & op' & tag & [[= -> ->]|?]%elem_of_cons & ?)]; [left; by left| |].
      * left. right. by exists tag.
      * right. by exists m', op', tag.
Qed.

Lemma member_extract_paths (paths : Server.Paths) groups (g : string) key :
  Spec.member (Server.extract_paths paths groups) g key
  ↔ Spec.member groups g key
    ∨ ∃ p m op tag, Spec.declares paths p m op ∧ tag ∈ Server.tags op
                    ∧ g = Server._transform_tag_name tag ∧ key = (p, Py.upper m).
Proof.
  unfold Server.extract_paths, Spec.declares. revert groups.
  induction paths as [|[p methods] paths IH]; intros groups; cbn [fold_left].
  - split; [by left|]. intros [?|(p & m & op & tag & (ms & []%elem_of_nil & _) & _)]. done.
  - rewrite IH, member_extract_methods. split.
    + intros [[?|(m & op & tag & ? & ?)]|(p' & m & op & tag & (ms & ? & ?) & ?)];
        [by left| |].
      * right. exists p, m, op, tag. split; [|done]. exists methods. split; [by left|done].
      * right. exists p', m, op, tag. split; [|done]. exists ms. split; [by right|done].
    + intros [?|(p' & m & op & tag & (ms & [[= -> ->]|?]%elem_of_cons & ?) & ?)];
        [left; by left| |].
      * left. right. by exists m, op, tag.
      * right. exists p', m, op, tag. split; [|done]. by exists ms.
Qed.

Lemma register_api_group_groups (g p m : string) (ff : FeatureFlags.FeatureFlagManager) :
  FeatureFlags._api_groups (FeatureFlags.register_api_group g p m ff)
  = Spec.add_member g (p, Py.upper m) (FeatureFlags._api_groups ff)
  ∧ FeatureFlags._flags (FeatureFlags.register_api_group g p m ff) = FeatureFlags._flags ff.
Proof. split; reflexivity. Qed.

Lemma register_members (g : string) (l : list (string * string))
    (ff : FeatureFlags.FeatureFlagManager) :
  FeatureFlags._api_groups
    (fold_left (λ ff '(p, m), FeatureFlags.register_api_group g p m ff) l ff)
  = fold_left (λ acc x, Spec.add_member g (x.1, Py.upper x.2) acc) l
      (FeatureFlags._api_groups ff)
  ∧ FeatureFlags._flags
      (fold_left (λ ff '(p, m), FeatureFlags.register_api_group g p m ff) l ff)
    = FeatureFlags._flags ff.
Proof.
  revert ff. induction l as [|[p m] l IH]; intros ff; cbn [fold_left]; [done|].
  destruct (IH (FeatureFlags.register_api_group g p m ff)) as [-> ->]. done.
Qed.

Lemma register_groups_spec groups (ff : FeatureFlags.FeatureFlagManager)
    (g : string) key :
  (Spec.member (FeatureFlags._api_groups (Server.register_groups groups ff)) g key
   ↔ Spec.member (FeatureFlags._api_groups ff) g key
     ∨ ∃ p m, Spec.member groups g (p, m) ∧ key = (p, Py.upper m))
  ∧ FeatureFlags._flags (Server.register_groups groups ff) = FeatureFlags._flags ff.
Proof.
  unfold Server.register_groups. revert ff.
  induction groups as [|[g0 s0] groups IH]; intros ff; cbn [fold_left].
  - split; [|done]. split; [by left|].
    intros [?|(p & m & (s & []%elem_of_nil & _) & _)]. done.
  - destruct (register_members g0 (elements s0) ff) as [Hgroups Hflags].
    destruct (IH (fold_left (λ ff '(p, m), FeatureFlags.register_api_group g0 p m ff)
                    (elements s0) ff)) as [Hmem ->].
    split; [|done]. rewrite Hmem, Hgroups.
    rewrite (member_fold_add (λ _, g0) (λ x, (x.1, Py.upper x.2))).
    unfold Spec.member. split.
    + intros [[?|([p m] & Hin%elem_of_elements & -> & ->)]|(p & m & (s & ? & ?) & ?)];
        [by left| |].
      * right. exists p, m. split; [|done]. exists s0. split; [by left|done].
      * right. exists p, m. split; [|done]. exists s. split; [by right|done].
    + intros [?|(p & m & (s & [[= -> ->]|?]%elem_of_cons & ?) & ->)]; [left; by left| |].
      * left. right. exists (p, m). split; [by apply elem_of_elements|done].
      * right. exists p, m. split; [|done]. by exists s.
Qed.

(** The groups of the flag manager after start-up on [paths]: an operation
    is in the group of each of its tags, under its upper-cased method. *)
Lemma member_after_extraction (paths : Server.Paths) (environ : list (string * string))
    (g : string) key :
  Spec.member
    (FeatureFlags._api_groups
       (Server._extract_api_groups_from_openapi paths [] (FeatureFlags.init environ)).2)
    g key
  ↔ ∃ p m op tag, Spec.declares paths p m op ∧ tag ∈ Server.tags op
                  ∧ g = Server._transform_tag_name tag ∧ key = (p, Py.upper m).
Proof.
  unfold Server._extract_api_groups_from_openapi. cbn [snd].
  destruct (register_groups_spec (Server.extract_paths paths []) (FeatureFlags.init environ)
              g key) as [-> _].
  split.
  - intros [(s & []%elem_of_nil & _)|(p & m & Hmem & ->)].
    apply member_extract_paths in Hmem as [(s & []%elem_of_nil & _)|Hdecl].
    destruct Hdecl as (p' & m' & op & tag & Hdecl & Htag & -> & [= -> ->]).
    exists p', m', op, tag. by rewrite upper_idemp.
  - intros (p & m & op & tag & Hdecl & Htag & -> & ->). right.
    exists p, (Py.upper m). split; [|by rewrite upper_idemp].
    apply member_extract_paths. right. by exists p, m, op, tag.
Qed.

End Registration.

Section DefaultFlags.



Lemma scan_groups_member (flags : gmap string bool) (key : string * string)
    (groups : Dict.t (gset (string * string))) (g : string) :
  Spec.member groups g key →
  ∃ g', Spec.member groups g' key
        ∧ FeatureFlags.scan_groups flags key groups = Some (default false (flags !! g')).
Proof.
  intros (s & Hin & Hkey).
  destruct (FeatureFlags.scan_groups flags key groups) as [b|] eqn:Hscan.
  - apply scan_groups_some in Hscan as (g' & s' & Hin' & Hkey' & ->).
    exists g'. split; [by exists s'|done].
  - exfalso. induction groups as [|[g0 s0] groups IH]; [by apply elem_of_nil in Hin|].
    cbn [FeatureFlags.scan_groups] in Hscan. case_bool_decide as Hk; [discriminate|].
    apply elem_of_cons in Hin as [[= <- <-]|Hin]; [done|by apply IH].
Qed.

(** An operation all of whose groups have one name gets the flag of that name. *)
Lemma is_api_enabled_one_group (self : FeatureFlags.FeatureFlagManager)
    (g api_path http_method : string) :
  Spec.belongs self g api_path http_method →
  (∀ g', Spec.belongs self g' api_path http_method → g' = g) →
  FeatureFlags.is_api_enabled self api_path http_method
  = default false (FeatureFlags._flags self !! g).
Proof.
  intros Hin Honly. unfold FeatureFlags.is_api_enabled.
  destruct (scan_groups_member (FeatureFlags._flags self) (api_path, Py.upper http_method)
              (FeatureFlags._api_groups self) g Hin) as (g' & Hin' & ->).
  rewrite (Honly g' Hin').
  destruct Hin as (s & Hs & _).
  destruct (FeatureFlags._api_groups self); [by apply elem_of_nil in Hs|].
  cbn [Dict.truthy negb]. by rewrite andb_false_r.
Qed.

End DefaultFlags.



Lemma reporting_paths_only (p tag : string) :
  (p, tag) ∈ [("/reporting/devices", "Device Reporting");
              ("/reporting/software", "Software Reporting")] →
  Spec.only_operation Fixtures.reporting_paths p "get" {| Server.tags := [tag] |}.
Proof.
  intros Hin. split.
  - exists [("get", {| Server.tags := [tag] |})]. split; [|by left].
    unfold Fixtures.reporting_paths.
    apply elem_of_cons in Hin as [[= -> ->]|[= -> ->]%list_elem_of_singleton];
      [by left|right; by left].
  - intros m' op' (methods & Hpath & Hop) _.
    unfold Fixtures.reporting_paths in Hpath.
    apply elem_of_cons in Hin as [Hin|Hin%list_elem_of_singleton];
      apply elem_of_cons in Hpath as [Hpath|Hpath%list_elem_of_singleton];
      simplify_eq; by apply list_elem_of_singleton in Hop as [= -> ->].
Qed.



(** ** C5: one envelope per clock reading *)

Section Serialization.

Lemma length_append (a b : string) :
  String.length (a +:+ b) = String.length a + String.length b.
Proof.
  induction a as [|x a IH]; [reflexivity|].
  rewrite append_cons. cbn [String.length]. by rewrite IH.
Qed.

Lemma append_inj_r (a b c : string) : a +:+ c = b +:+ c → a = b.
Proof.
  revert b. induction a as [|x a IH]; intros [|y b] Heq; [done| | |].
  - exfalso. apply (f_equal String.length) in Heq.
    rewrite append_nil_l, append_cons in Heq. cbn [String.length] in Heq.
    rewrite length_append in Heq. lia.
  - exfalso. apply (f_equal String.length) in Heq.
    rewrite append_nil_l, append_cons in Heq. cbn [String.length] in Heq.
    rewrite length_append in Heq. lia.
  - rewrite !append_cons in Heq. injection Heq as -> Heq. f_equal. by apply IH.
Qed.

Lemma dumps_int_inj (n m : Z) : Json.dumps_int n = Json.dumps_int m → n = m.
Proof.
  unfold Json.dumps_int. intros Heq.
  assert (Hnn : ∀ z, Z.to_int z ≠ Decimal.Pos Decimal.Nil
                     ∧ Z.to_int z ≠ Decimal.Neg Decimal.Nil).
  { intros [|p|p]; cbn; split; try discriminate; intros [= H];
      by apply DecimalPos.Unsigned.to_uint_nonnil in H. }
  apply (f_equal NilZero.int_of_string) in Heq.
  rewrite !NilZero.isi in Heq by apply Hnn.
  injection Heq as Heq. by apply DecimalZ.to_int_inj.
Qed.

(** Two objects that differ in the value of their last key only. *)
Lemma dumps_last_value_inj (ensure_ascii : bool) (item_separator key_separator : string)
    (items : list (string * Json.JSON)) (k : string) (v1 v2 : Json.JSON) :
  Json.dumps ensure_ascii item_separator key_separator (Json.JDict (items ++ [(k, v1)]))
  = Json.dumps ensure_ascii item_separator key_separator (Json.JDict (items ++ [(k, v2)])) →
  Json.dumps ensure_ascii item_separator key_separator v1
  = Json.dumps ensure_ascii item_separator key_separator v2.
Proof.
  cbn [Json.dumps]. intros Heq. apply (inj (String.append _)) in Heq.
  induction items as [|[k0 v0] items IH].
  - cbn [app List.map Json.join] in Heq.
    apply append_inj_r in Heq. by do 2 apply (inj (String.append _)) in Heq.
  - apply IH. clear IH. cbn [app List.map] in Heq.
    destruct items as [|item items]; cbn [app List.map Json.join] in Heq |- *.
    + repeat rewrite append_assoc in Heq. repeat rewrite append_assoc.
      by do 4 apply (inj (String.append _)) in Heq.
    + rewrite !append_assoc in Heq.
      by do 4 apply (inj (String.append _)) in Heq.
Qed.

End Serialization.

Section Bytes.

Lemma to_N_byte_of_ascii (c : ascii) : Byte.to_N (byte_of_ascii c) = N_of_ascii c.
Proof. apply Byte.to_of_N. symmetry. apply byte_of_ascii_via_N. Qed.

Lemma to_N_byte_of_N (n : N) : (n < 256)%N → Byte.to_N (Codec.byte_of_N n) = n.
Proof.
  intros Hn. unfold Codec.byte_of_N.
  rewrite to_N_byte_of_ascii. by apply N_ascii_embedding.
Qed.

Lemma to_N_inj (a b : byte) : Byte.to_N a = Byte.to_N b → a = b.
Proof.
  intros Heq. apply (f_equal Byte.of_N) in Heq.
  rewrite !Byte.of_to_N in Heq. congruence.
Qed.

Lemma to_N_lt (a : byte) : (Byte.to_N a < 256)%N.
Proof. pose proof (Byte.to_N_bounded a). lia. Qed.

Lemma N_of_ascii_lt (c : ascii) : (N_of_ascii c < 256)%N.
Proof. apply N_ascii_bounded. Qed.

Lemma N_of_ascii_inj (a b : ascii) : N_of_ascii a = N_of_ascii b → a = b.
Proof.
  intros Heq. apply (f_equal ascii_of_N) in Heq.
  by rewrite !ascii_N_embedding in Heq.
Qed.

Lemma div_mod_split (x d : N) :
  (d ≠ 0)%N → ∃ q r, (x = d * q + r ∧ r < d ∧ x / d = q ∧ x mod d = r)%N.
Proof.
  intros Hd. exists (x / d)%N, (x mod d)%N.
  split; [apply N.div_mod'|]. split; [by apply N.mod_lt|done].
Qed.

Ltac split_byte x d :=
  let q := fresh "q" in
  let r := fresh "r" in
  let Hq := fresh "Hq" in
  let Hr := fresh "Hr" in
  destruct (div_mod_split x d ltac:(lia)) as (q & r & ? & ? & Hq & Hr);
  rewrite ?Hq, ?Hr in *; clear Hq Hr.

Lemma to_bytes_inj (s1 s2 : string) : Codec.to_bytes s1 = Codec.to_bytes s2 → s1 = s2.
Proof.
  revert s2. induction s1 as [|c1 s1 IH]; intros [|c2 s2]; cbn [Codec.to_bytes].
  - done.
  - by destruct (_ <? _)%N.
  - by destruct (_ <? _)%N.
  - pose proof (N_of_ascii_lt c1) as H1. pose proof (N_of_ascii_lt c2) as H2.
    split_byte (N_of_ascii c1) 64%N. split_byte (N_of_ascii c2) 64%N.
    destruct (N.ltb_spec (N_of_ascii c1) 128) as [L1|L1];
      destruct (N.ltb_spec (N_of_ascii c2) 128) as [L2|L2].
    + intros [= Hc Hs]. f_equal; [|by apply IH].
      apply (f_equal ascii_of_byte) in Hc. by rewrite !ascii_of_byte_of_ascii in Hc.
    + intros [= Hc _]. exfalso. apply (f_equal Byte.to_N) in Hc.
      rewrite to_N_byte_of_ascii, to_N_byte_of_N in Hc by lia. lia.
    + intros [= Hc _]. exfalso. apply (f_equal Byte.to_N) in Hc.
      rewrite to_N_byte_of_ascii, to_N_byte_of_N in Hc by lia. lia.
    + intros [= Hhi Hlo Hs]. f_equal; [|by apply IH].
      apply (f_equal Byte.to_N) in Hhi, Hlo.
      rewrite !to_N_byte_of_N in Hhi, Hlo by lia.
      apply N_of_ascii_inj. lia.
Qed.

Lemma b64_index_char (n : N) : (n < 64)%N → Spec.b64_index (Codec.b64_char n) = n.
Proof.
  intros Hn. rewrite <- (N2Nat.id n). assert (Hi : N.to_nat n < 64) by lia.
  generalize dependent (N.to_nat n). clear. intros i Hi.
  do 64 (destruct i as [|i]; [reflexivity|]). lia.
Qed.

Lemma b64_char_inj (n m : N) :
  (n < 64)%N → (m < 64)%N → Codec.b64_char n = Codec.b64_char m → n = m.
Proof.
  intros Hn Hm Heq. apply (f_equal Spec.b64_index) in Heq.
  by rewrite !b64_index_char in Heq.
Qed.

Lemma b64_char_not_dot (n : N) : Codec.b64_char n ≠ "."%char.
Proof.
  unfold Codec.b64_char. generalize (N.to_nat n). intros i.
  do 64 (destruct i as [|i]; [by vm_compute|]). by vm_compute.
Qed.

Lemma list_ind3 {A : Type} (P : list A → Prop) :
  P [] → (∀ a, P [a]) → (∀ a b, P [a; b]) →
  (∀ a b c l, P l → P (a :: b :: c :: l)) → ∀ l, P l.
Proof.
  intros H0 H1 H2 H3 l.
  assert (Hall : ∀ n l, length l ≤ n → P l); [|by apply (Hall (length l))].
  clear l. induction n as [|n IH]; intros [|a [|b [|c l]]] Hlen;
    cbn [length] in Hlen; auto.
  - lia.
  - apply H3, IH. lia.
Qed.

(** The sextets of one, two and three bytes determine the bytes. *)
Lemma sextets_inj (x y z x' y' z' : N) :
  (x < 256 → y < 256 → z < 256 → x' < 256 → y' < 256 → z' < 256 →
   Codec.b64_char (x / 4) = Codec.b64_char (x' / 4) →
   Codec.b64_char (x mod 4 * 16 + y / 16) = Codec.b64_char (x' mod 4 * 16 + y' / 16) →
   Codec.b64_char (y mod 16 * 4 + z / 64) = Codec.b64_char (y' mod 16 * 4 + z' / 64) →
   Codec.b64_char (z mod 64) = Codec.b64_char (z' mod 64) →
   x = x' ∧ y = y' ∧ z = z')%N.
Proof.
  intros Hx Hy Hz Hx' Hy' Hz' E0 E1 E2 E3.
  split_byte x 4%N. split_byte x' 4%N. split_byte y 16%N. split_byte y' 16%N.
  split_byte z 64%N. split_byte z' 64%N.
  apply b64_char_inj in E0, E1, E2, E3; try lia.
Qed.

Lemma urlsafe_b64encode_inj (xs ys : list byte) :
  Codec.urlsafe_b64encode xs = Codec.urlsafe_b64encode ys → xs = ys.
Proof.
  revert ys. induction xs as [|a|a b|a b c xs IH] using list_ind3;
    intros [|a' [|b' [|c' ys]]]; cbn [Codec.urlsafe_b64encode]; try discriminate.
  - done.
  - intros [= E0 E1].
    destruct (sextets_inj (Byte.to_N a) 0 0 (Byte.to_N a') 0 0) as (Ha & _ & _);
      try apply to_N_lt; try done.
    + by rewrite !N.add_0_r.
    + f_equal. by apply to_N_inj.
  - intros [= E0 E1 E2].
    destruct (sextets_inj (Byte.to_N a) (Byte.to_N b) 0 (Byte.to_N a') (Byte.to_N b') 0)
      as (Ha & Hb & _); try apply to_N_lt; try done.
    + by rewrite !N.add_0_r.
    + f_equal; [|f_equal]; by apply to_N_inj.
  - intros [= E0 E1 E2 E3 Hrest].
    destruct (sextets_inj (Byte.to_N a) (Byte.to_N b) (Byte.to_N c)
                (Byte.to_N a') (Byte.to_N b') (Byte.to_N c'))
      as (Ha & Hb & Hc); try apply to_N_lt; try done.
    f_equal; [|f_equal; [|f_equal; [|by apply IH]]]; by apply to_N_inj.
Qed.

Lemma contains_dot_cons (c : ascii) (s : string) :
  Py.contains "." (String c s) = Ascii.eqb "." c || Py.contains "." s.
Proof. cbn [Py.contains Py.startswith]. by rewrite andb_true_r. Qed.

Lemma urlsafe_b64encode_no_dot (bs : list byte) :
  Py.contains "." (Codec.urlsafe_b64encode bs) = false.
Proof.
  assert (Hc : ∀ n, Ascii.eqb "." (Codec.b64_char n) = false).
  { intros n. apply Ascii.eqb_neq. intros Heq. by apply (b64_char_not_dot n). }
  induction bs as [|a|a b|a b c bs IH] using list_ind3;
    cbn [Codec.urlsafe_b64encode]; rewrite ?contains_dot_cons, ?Hc; try done.
Qed.

(** Two strings without a dot that are each followed by a dot. *)
Lemma split_at_dot (s1 s2 r1 r2 : string) :
  Py.contains "." s1 = false → Py.contains "." s2 = false →
  s1 +:+ "." +:+ r1 = s2 +:+ "." +:+ r2 → s1 = s2.
Proof.
  revert s2. induction s1 as [|c1 s1 IH]; intros [|c2 s2];
    rewrite ?contains_dot_cons, ?append_cons, ?append_nil_l.
  - done.
  - intros _ Hc [= <- _]. by rewrite Ascii.eqb_refl in Hc.
  - intros Hc _ [= -> _]. by rewrite Ascii.eqb_refl in Hc.
  - intros [_ H1]%orb_false_elim [_ H2]%orb_false_elim [= -> Heq].
    f_equal. by apply IH.
Qed.

End Bytes.

Section Signing.

Variable hmac_sha256 : list byte → list byte → list byte.

(** The envelope determines the JSON text of its header. *)
Lemma serialize_compact_header_inj (protected1 protected2 : list (string * Json.JSON))
    (payload1 payload2 key1 key2 : string) :
  Jws.serialize_compact hmac_sha256 protected1 payload1 key1
  = Jws.serialize_compact hmac_sha256 protected2 payload2 key2 →
  Json.dumps_compact (Json.JDict protected1) = Json.dumps_compact (Json.JDict protected2).
Proof.
  unfold Jws.serialize_compact. cbv zeta. rewrite !append_assoc. intros Heq.
  apply split_at_dot in Heq; [|apply urlsafe_b64encode_no_dot..].
  by apply to_bytes_inj, urlsafe_b64encode_inj.
Qed.

Lemma jws_header_last (self : AuthClient.AbsoluteAuthClient)
    (method path query_string : string) (issued_at : Z) :
  AuthClient.jws_header self method path query_string issued_at
  = take 6 (AuthClient.jws_header self method path query_string 0)
    ++ [("issuedAt", Json.JInt issued_at)].
Proof. reflexivity. Qed.

(** C5. The envelope is a function of the arguments, the credential and the
    clock reading alone: two runs that read the same [issuedAt] yield the
    same envelope, whatever else the world holds, and two runs that read
    different [issuedAt] values yield different envelopes. *)
Theorem sign_deterministic_and_fresh (self : AuthClient.AbsoluteAuthClient)
    (method path query_string : string)
    (json_data : option (list (string * Json.JSON))) (w1 w2 : AuthClient.World) :
  (AuthClient.issued_at_ms w1 = AuthClient.issued_at_ms w2 →
     (AuthClient._prepare_jws_payload hmac_sha256 self method path query_string json_data w1).1
     = (AuthClient._prepare_jws_payload hmac_sha256 self method path query_string json_data w2).1)
  ∧ (AuthClient.issued_at_ms w1 ≠ AuthClient.issued_at_ms w2 →
     (AuthClient._prepare_jws_payload hmac_sha256 self method path query_string json_data w1).1
     ≠ (AuthClient._prepare_jws_payload hmac_sha256 self method path query_string json_data w2).1).
Proof.
  unfold AuthClient._prepare_jws_payload, mbind, AuthClient.IO_bind, mret, AuthClient.IO_ret,
    AuthClient.time_ms, AuthClient.logger_debug.
  cbn [fst]. split.
  - by intros ->.
  - intros Hne Heq. apply Hne.
    apply serialize_compact_header_inj in Heq.
    rewrite (jws_header_last _ _ _ _ (AuthClient.issued_at_ms w1)),
      (jws_header_last _ _ _ _ (AuthClient.issued_at_ms w2)) in Heq.
    unfold Json.dumps_compact in Heq.
    apply dumps_last_value_inj in Heq. by apply dumps_int_inj.
Qed.

End Signing.

Lemma sign_deterministic_and_fresh_witness :
  (AuthClient._prepare_jws_payload Fixtures.mock_hmac Fixtures.test_client
     "GET" "/v3/api/test" "" None Fixtures.test_world).1
  = (AuthClient._prepare_jws_payload Fixtures.mock_hmac Fixtures.test_client
       "GET" "/v3/api/test" "" None
       {| AuthClient.issued_at_ms := 1234567890000;
          AuthClient.debug_log := ["Making request: GET /v3/api/test"] |}).1
  ∧ (AuthClient._prepare_jws_payload Fixtures.mock_hmac Fixtures.test_client
       "GET" "/v3/api/test" "" None Fixtures.test_world).1
    ≠ (AuthClient._prepare_jws_payload Fixtures.mock_hmac Fixtures.test_client
         "GET" "/v3/api/test" "" None
         {| AuthClient.issued_at_ms := 1234567890001; AuthClient.debug_log := [] |}).1.
Proof.
  split.
  - apply (sign_deterministic_and_fresh Fixtures.mock_hmac Fixtures.test_client
             "GET" "/v3/api/test" "" None). reflexivity.
  - apply (sign_deterministic_and_fresh Fixtures.mock_hmac Fixtures.test_client
             "GET" "/v3/api/test" "" None). discriminate.
Defined.

(** * Further properties *)

(** ** Feature flags from the environment *)

Section EnvironmentFlags.

Lemma scan_env_cons (key value : string) (environ : list (string * string))
    (result : gmap string bool) :
  Settings.scan_env ((key, value) :: environ) result
  = Settings.scan_env environ
      (if Py.startswith Settings.prefix key
       then <[More.feature_name key := More.flag_value value]> result else result).
Proof. cbn [Settings.scan_env]. by destruct (Py.startswith _ _). Qed.

Lemma scan_env_app (before after : list (string * string)) (result : gmap string bool) :
  Settings.scan_env (before ++ after) result
  = Settings.scan_env after (Settings.scan_env before result).
Proof.
  revert result. induction before as [|[key value] before IH]; intros result; [done|].
  cbn [app]. by rewrite !scan_env_cons, IH.
Qed.

(** A flag name that no variable of the environment gives keeps its entry. *)
Lemma scan_env_other (environ : list (string * string)) (result : gmap string bool)
    (name : string) :
  (∀ k v, (k, v) ∈ environ → More.is_flag k → More.feature_name k ≠ name) →
  Settings.scan_env environ result !! name = result !! name.
Proof.
  revert result. induction environ as [|[key value] environ IH]; intros result Hother;
    [done|].
  rewrite scan_env_cons, IH.
  - destruct (Py.startswith Settings.prefix key) eqn:Hflag; [|done].
    rewrite lookup_insert_ne; [done|]. apply (Hother key value); [by left|done].
  - intros k v Hin. apply (Hother k v). by right.
Qed.

Lemma scan_env_last (before after : list (string * string)) (key value : string)
    (result : gmap string bool) :
  More.is_flag key →
  (∀ k v, (k, v) ∈ after → More.is_flag k → More.feature_name k ≠ More.feature_name key) →
  Settings.scan_env (before ++ (key, value) :: after) result !! More.feature_name key
  = Some (More.flag_value value).
Proof.
  intros Hflag Hafter. rewrite scan_env_app, scan_env_cons, Hflag.
  rewrite scan_env_other by done. apply lookup_insert_eq.
Qed.

End EnvironmentFlags.

(** X1. A variable whose name starts with [ABS_FEATURE_] sets the flag named
    by the rest of its name, lower-cased and with dashes for underscores; the
    flag is [True] exactly when the value of the variable lower-cases to
    [enabled]; among the variables that give one flag name, the last one of
    the environment decides. *)
Theorem flag_of_last_variable (before after : list (string * string))
    (key value : string) :
  More.is_flag key →
  (∀ k v, (k, v) ∈ after → More.is_flag k → More.feature_name k ≠ More.feature_name key) →
  Settings.get_feature_flags_from_env (before ++ (key, value) :: after)
    !! More.feature_name key
  = Some (More.flag_value value).
Proof.
  intros Hflag Hafter. unfold Settings.get_feature_flags_from_env.
  pose proof (scan_env_last before after key value ∅ Hflag Hafter) as Hlast.
  destruct (bool_decide (Settings.scan_env _ ∅ = ∅)) eqn:Hempty; [|done].
  apply bool_decide_eq_true_1 in Hempty. by rewrite Hempty, lookup_empty in Hlast.
Qed.

Lemma flag_of_last_variable_witness :
  NoDup [ "ABS_FEATURE_device_reporting"; "API_KEY"; "ABS_FEATURE_DEVICE_REPORTING";
          "ABS_FEATURE_SOFTWARE_REPORTING" ]
  ∧ Settings.get_feature_flags_from_env
      [("ABS_FEATURE_device_reporting", "enabled"); ("API_KEY", "foo");
       ("ABS_FEATURE_DEVICE_REPORTING", "Disabled");
       ("ABS_FEATURE_SOFTWARE_REPORTING", "ENABLED")]
      !! "device-reporting" = Some false
  ∧ Settings.get_feature_flags_from_env
      [("ABS_FEATURE_device_reporting", "enabled"); ("API_KEY", "foo");
       ("ABS_FEATURE_DEVICE_REPORTING", "Disabled");
       ("ABS_FEATURE_SOFTWARE_REPORTING", "ENABLED")]
      !! "software-reporting" = Some true.
Proof.
  split; [|split].
  - apply (bool_decide_unpack _). reflexivity.
  - apply (flag_of_last_variable
             [("ABS_FEATURE_device_reporting", "enabled"); ("API_KEY", "foo")]
             [("ABS_FEATURE_SOFTWARE_REPORTING", "ENABLED")]
             "ABS_FEATURE_DEVICE_REPORTING" "Disabled"); [reflexivity|].
    intros k v [= -> ->]%list_elem_of_singleton _. discriminate.
  - apply (flag_of_last_variable
             [("ABS_FEATURE_device_reporting", "enabled"); ("API_KEY", "foo");
              ("ABS_FEATURE_DEVICE_REPORTING", "Disabled")]
             [] "ABS_FEATURE_SOFTWARE_REPORTING" "ENABLED"); [reflexivity|].
    by intros k v []%elem_of_nil.
Defined.

(** X2. Once a single feature variable is set the default is gone: a flag
    name that no variable gives has no entry, [device-reporting] included,
    and the names with an entry are exactly those that the variables give. *)
Theorem no_default_once_a_flag_is_set (environ : list (string * string))
    (key value name : string) :
  (key, value) ∈ environ → More.is_flag key →
  (is_Some (Settings.get_feature_flags_from_env environ !! name)
   ↔ ∃ k v, (k, v) ∈ environ ∧ More.is_flag k ∧ More.feature_name k = name)
  ∧ ((∀ k v, (k, v) ∈ environ → More.is_flag k → More.feature_name k ≠ "device-reporting") →
     Settings.get_feature_flags_from_env environ !! "device-reporting" = None).
Proof.
  intros Hin Hflag.
  assert (Hscan : ∀ env result n,
    is_Some (Settings.scan_env env result !! n)
    ↔ is_Some (result !! n)
      ∨ ∃ k v, (k, v) ∈ env ∧ More.is_flag k ∧ More.feature_name k = n).
  { induction env as [|[k0 v0] env IH]; intros result n.
    - cbn. split; [by left|]. intros [?|(k & v & []%elem_of_nil & _)]. done.
    - rewrite scan_env_cons, IH. split.
      + intros [Hsome|(k & v & Hk & ?)].
        * destruct (Py.startswith Settings.prefix k0) eqn:Hk0; [|by left].
          destruct (decide (More.feature_name k0 = n)) as [<-|Hne].
          -- right. exists k0, v0. split; [by left|done].
          -- rewrite lookup_insert_ne in Hsome by done. by left.
        * right. exists k, v. split; [by right|done].
      + intros [Hsome|(k & v & [[= -> ->]|Hk]%elem_of_cons & Hkf & Hn)].
        * left. destruct (Py.startswith Settings.prefix k0); [|done].
          destruct (decide (More.feature_name k0 = n)) as [<-|Hne].
          -- rewrite lookup_insert_eq. by eexists.
          -- by rewrite lookup_insert_ne.
        * left. unfold More.is_flag in Hkf. rewrite Hkf, <- Hn, lookup_insert_eq.
          by eexists.
        * right. by exists k, v. }
  assert (Hresult : Settings.get_feature_flags_from_env environ
                    = Settings.scan_env environ ∅).
  { unfold Settings.get_feature_flags_from_env.
    destruct (bool_decide (Settings.scan_env environ ∅ = ∅)) eqn:Hempty; [|done].
    apply bool_decide_eq_true_1 in Hempty. exfalso.
    assert (Hsome : is_Some (Settings.scan_env environ ∅ !! More.feature_name key)).
    { apply Hscan. right. by exists key, value. }
    rewrite Hempty, lookup_empty in Hsome. by destruct Hsome. }
  rewrite Hresult. split.
  - rewrite Hscan, lookup_empty. split; [|by right].
    intros [[? [=]]|?]. done.
  - intros Hnone. rewrite scan_env_other by done. apply lookup_empty.
Qed.

Lemma no_default_once_a_flag_is_set_witness :
  Settings.get_feature_flags_from_env
    [("API_KEY", "foo"); ("ABS_FEATURE_SOFTWARE_REPORTING", "enabled")]
    !! "device-reporting" = None.
Proof.
  apply (no_default_once_a_flag_is_set
           [("API_KEY", "foo"); ("ABS_FEATURE_SOFTWARE_REPORTING", "enabled")]
           "ABS_FEATURE_SOFTWARE_REPORTING" "enabled" "device-reporting").
  - right. by left.
  - reflexivity.
  - intros k v [[= -> ->]|[= -> ->]%list_elem_of_singleton]%elem_of_cons; discriminate.
Defined.

Section TagVariables.

Lemma str_map_ext (f g : ascii → ascii) (s : string) :
  (∀ c, Py.contains (String c "") s = true → f c = g c) →
  Py.str_map f s = Py.str_map g s.
Proof.
  induction s as [|a s IH]; intros Hfg; [done|]. cbn [Py.str_map]. f_equal.
  - apply Hfg. cbn [Py.contains Py.startswith]. by rewrite Ascii.eqb_refl.
  - apply IH. intros c Hc. apply Hfg. cbn [Py.contains]. rewrite Hc. apply orb_true_r.
Qed.

Lemma drop_app_length (p s : string) : Py.drop (String.length p) (p +:+ s) = s.
Proof. induction p as [|c p IH]; [by destruct s|]. by rewrite append_cons. Qed.

Lemma tag_char_via_variable (c : ascii) :
  c ≠ "_"%char →
  (let u := Py.upper_char c in
   let v := if Ascii.eqb u " " then "_"%char else u in
   let l := Py.lower_char v in
   if Ascii.eqb l "_" then "-"%char else l) = Spec.transform_char c.
Proof. destruct c as [[] [] [] [] [] [] [] []]; intros Hc; try reflexivity. by destruct Hc. Qed.

End TagVariables.

Lemma feature_name_env_key_of_tag (tag : string) :
  Py.isascii tag = true → Py.contains "_" tag = false →
  More.feature_name (More.env_key_of_tag tag) = Server._transform_tag_name tag.
Proof.
  intros Hascii Htag. unfold More.feature_name, More.env_key_of_tag.
  rewrite drop_app_length, (upper_isascii tag Hascii).
  rewrite _transform_tag_name_chars. unfold Py.replace, Py.lower.
  rewrite !str_map_compose. apply str_map_ext. intros c Hc.
  apply tag_char_via_variable. intros ->. congruence.
Qed.

(** X3. The environment variable for a tag: for a tag of ASCII characters
    without underscore, the variable named [ABS_FEATURE_] followed by the tag
    in upper case with underscores for spaces is read as a flag, and the flag
    it sets is the group name of the tag; so it decides the flag of the tag's
    group unless a later variable gives the same name. *)
Theorem variable_of_tag_sets_its_group (tag value : string)
    (before after : list (string * string)) :
  Py.isascii tag = true →
  Py.contains "_" tag = false →
  (∀ k v, (k, v) ∈ after → More.is_flag k →
     More.feature_name k ≠ Server._transform_tag_name tag) →
  More.is_flag (More.env_key_of_tag tag)
  ∧ More.feature_name (More.env_key_of_tag tag) = Server._transform_tag_name tag
  ∧ Settings.get_feature_flags_from_env
      (before ++ (More.env_key_of_tag tag, value) :: after)
      !! Server._transform_tag_name tag
    = Some (More.flag_value value).
Proof.
  intros Hascii Htag Hafter.
  assert (Hflag : More.is_flag (More.env_key_of_tag tag)) by apply startswith_app.
  assert (Hname := feature_name_env_key_of_tag tag Hascii Htag).
  split; [done|]. split; [done|].
  unfold Settings.get_feature_flags_from_env.
  assert (Hlast : Settings.scan_env (before ++ (More.env_key_of_tag tag, value) :: after) ∅
                  !! Server._transform_tag_name tag = Some (More.flag_value value)).
  { rewrite <- Hname. apply scan_env_last; [done|]. by rewrite Hname. }
  destruct (bool_decide (Settings.scan_env _ ∅ = ∅)) eqn:Hempty; [|done].
  apply bool_decide_eq_true_1 in Hempty. by rewrite Hempty, lookup_empty in Hlast.
Qed.

Lemma variable_of_tag_sets_its_group_witness :
  More.env_key_of_tag "Software Reporting" = "ABS_FEATURE_SOFTWARE_REPORTING"
  ∧ Settings.get_feature_flags_from_env
      [("API_KEY", "foo"); (More.env_key_of_tag "Software Reporting", "enabled")]
      !! Server._transform_tag_name "Software Reporting" = Some true.
Proof.
  split; [reflexivity|].
  apply (variable_of_tag_sets_its_group "Software Reporting" "enabled"
           [("API_KEY", "foo")] []); [reflexivity..|].
  by intros k v []%elem_of_nil.
Defined.

(** ** The feature flag manager *)

Section Manager.

Implicit Types self : FeatureFlags.FeatureFlagManager.
Implicit Types groups : Dict.t (gset (string * string)).
Implicit Types key : string * string.

Lemma belongs_register (g p m : string) self (g' p' m' : string) :
  Spec.belongs (FeatureFlags.register_api_group g p m self) g' p' m'
  ↔ Spec.belongs self g' p' m' ∨ (g' = g ∧ p' = p ∧ Py.upper m' = Py.upper m).
Proof.
  unfold Spec.belongs.
  destruct (register_api_group_groups g p m self) as [-> _].
  change (Spec.member (Spec.add_member g (p, Py.upper m)
            (FeatureFlags._api_groups self)) g' (p', Py.upper m')
          ↔ Spec.member (FeatureFlags._api_groups self) g' (p', Py.upper m')
            ∨ (g' = g ∧ p' = p ∧ Py.upper m' = Py.upper m)).
  rewrite member_add_member. split.
  - intros [?|[-> [= -> ->]]]; [by left|by right].
  - intros [?|(-> & -> & ->)]; [by left|by right].
Qed.

Lemma add_member_idemp (g : string) key groups :
  Spec.add_member g key (Spec.add_member g key groups) = Spec.add_member g key groups.
Proof.
  induction groups as [|[g0 s0] groups IH].
  - rewrite add_member_nil, add_member_cons, String.eqb_refl.
    by rewrite <- (assoc_L (∪)), (idemp_L (∪)).
  - rewrite add_member_cons. destruct (String.eqb g g0) eqn:Hg.
    + rewrite add_member_cons, Hg. by rewrite <- (assoc_L (∪)), (idemp_L (∪)).
    + by rewrite add_member_cons, Hg, IH.
Qed.

Lemma scan_groups_add_other (flags : gmap string bool) (g : string) key key' groups :
  key' ≠ key →
  FeatureFlags.scan_groups flags key' (Spec.add_member g key groups)
  = FeatureFlags.scan_groups flags key' groups.
Proof.
  intros Hne. induction groups as [|[g0 s0] groups IH].
  - rewrite add_member_nil. cbn [FeatureFlags.scan_groups].
    rewrite bool_decide_eq_false_2; [done|].
    intros [[]%elem_of_empty|?%elem_of_singleton]%elem_of_union. done.
  - rewrite add_member_cons. destruct (String.eqb g g0); cbn [FeatureFlags.scan_groups].
    + destruct (decide (key' ∈ s0)) as [Hin|Hin].
      * rewrite !bool_decide_eq_true_2; [done|done|]. apply elem_of_union. by left.
      * rewrite !bool_decide_eq_false_2; [done|done|].
        intros [?|?%elem_of_singleton]%elem_of_union; done.
    + by rewrite IH.
Qed.

Lemma add_member_names (g : string) key groups :
  (Spec.add_member g key groups).*1
  = if bool_decide (g ∈ groups.*1) then groups.*1 else groups.*1 ++ [g].
Proof.
  induction groups as [|[g0 s0] groups IH].
  - rewrite add_member_nil. cbn. rewrite bool_decide_eq_false_2; [done|]. apply not_elem_of_nil.
  - rewrite add_member_cons. cbn [fmap list_fmap fst].
    destruct (String.eqb_spec g g0) as [->|Hne].
    + cbn [fmap list_fmap fst]. rewrite bool_decide_eq_true_2; [done|]. by left.
    + cbn [fmap list_fmap fst]. change (list_fmap _ _ fst ?l) with (l.*1). rewrite IH.
      destruct (decide (g ∈ groups.*1)) as [Hin|Hin].
      * rewrite !bool_decide_eq_true_2; [done|by right|done].
      * rewrite !bool_decide_eq_false_2; [done| |done].
        intros [?|?]%elem_of_cons; done.
Qed.

End Manager.

(** X4. [register_api_group] adds one membership and nothing else: after it
    an operation belongs to a group exactly when it did before or when it is
    the registered operation, its method compared without case, and the
    group is the registered one; the flags are unchanged. *)
Theorem register_adds_one_membership (g p m : string)
    (self : FeatureFlags.FeatureFlagManager) (g' p' m' : string) :
  (Spec.belongs (FeatureFlags.register_api_group g p m self) g' p' m'
   ↔ Spec.belongs self g' p' m' ∨ (g' = g ∧ p' = p ∧ Py.upper m' = Py.upper m))
  ∧ FeatureFlags._flags (FeatureFlags.register_api_group g p m self)
    = FeatureFlags._flags self.
Proof. split; [apply belongs_register|reflexivity]. Qed.

(** X5. Registration is idempotent and blind to the case of the method:
    registering an operation a second time, in any casing of its method,
    leaves the manager as the first registration left it. *)
Theorem register_twice (g p m m' : string) (self : FeatureFlags.FeatureFlagManager) :
  Py.upper m' = Py.upper m →
  FeatureFlags.register_api_group g p m' (FeatureFlags.register_api_group g p m self)
  = FeatureFlags.register_api_group g p m self.
Proof.
  intros Hm.
  assert (Hreg : ∀ x ff, FeatureFlags.register_api_group g p x ff
                 = {| FeatureFlags._flags := FeatureFlags._flags ff;
                      FeatureFlags._api_groups :=
                        Spec.add_member g (p, Py.upper x) (FeatureFlags._api_groups ff) |})
    by reflexivity.
  rewrite (Hreg m'), (Hreg m). cbn [FeatureFlags._flags FeatureFlags._api_groups].
  by rewrite Hm, add_member_idemp.
Qed.

Lemma register_twice_witness :
  FeatureFlags.register_api_group "test_group" "/api/test1" "get"
    (FeatureFlags.register_api_group "test_group" "/api/test1" "GET" Fixtures.grouped_manager)
  = FeatureFlags.register_api_group "test_group" "/api/test1" "GET" Fixtures.grouped_manager.
Proof. apply (register_twice "test_group" "/api/test1" "GET" "get"). reflexivity. Defined.

(** X6. Registering an operation does not change the answer of
    [is_api_enabled] for any other operation. *)
Theorem register_keeps_other_answers (g p m : string)
    (self : FeatureFlags.FeatureFlagManager) (p' m' : string) :
  (p', Py.upper m') ≠ (p, Py.upper m) →
  FeatureFlags.is_api_enabled (FeatureFlags.register_api_group g p m self) p' m'
  = FeatureFlags.is_api_enabled self p' m'.
Proof.
  intros Hne. unfold FeatureFlags.is_api_enabled.
  destruct (register_api_group_groups g p m self) as [-> ->].
  rewrite scan_groups_add_other by done.
  assert (Hfull : Dict.truthy (Spec.add_member g (p, Py.upper m)
                                 (FeatureFlags._api_groups self)) = true).
  { destruct (FeatureFlags._api_groups self) as [|[g0 s0] groups].
    - by rewrite add_member_nil.
    - rewrite add_member_cons. by destruct (String.eqb g g0). }
  rewrite Hfull. cbn [negb]. rewrite andb_false_r.
  destruct (bool_decide (FeatureFlags._flags self = ∅)
            && negb (Dict.truthy (FeatureFlags._api_groups self))) eqn:Hlegacy; [|done].
  apply andb_true_iff in Hlegacy as [_ Hnil].
  destruct (FeatureFlags._api_groups self); [done|discriminate].
Qed.

Lemma register_keeps_other_answers_witness :
  FeatureFlags.is_api_enabled
    (FeatureFlags.register_api_group "disabled_group" "/api/test1" "POST"
       Fixtures.grouped_manager) "/api/test1" "get"
  = FeatureFlags.is_api_enabled Fixtures.grouped_manager "/api/test1" "get".
Proof.
  apply (register_keeps_other_answers "disabled_group" "/api/test1" "POST").
  discriminate.
Defined.

(** X7. An operation that belonged to no group and is then registered under
    a group is enabled exactly when that group has the flag [True]; a group
    without flag entry disables it.  The method may be asked for in any
    casing. *)
Theorem register_then_ask (g p m m' : string) (self : FeatureFlags.FeatureFlagManager) :
  (∀ g', ¬ Spec.belongs self g' p m) →
  Py.upper m' = Py.upper m →
  FeatureFlags.is_api_enabled (FeatureFlags.register_api_group g p m self) p m'
  = default false (FeatureFlags._flags self !! g).
Proof.
  intros Hfresh Hm.
  rewrite (is_api_enabled_one_group _ g).
  - reflexivity.
  - apply belongs_register. right. done.
  - intros g' [Hold|(-> & _)]%belongs_register; [|done].
    exfalso. apply (Hfresh g'). unfold Spec.belongs in *. by rewrite <- Hm.
Qed.

Lemma register_then_ask_witness :
  FeatureFlags.is_api_enabled
    (FeatureFlags.register_api_group "unflagged_group" "/api/new" "delete"
       Fixtures.grouped_manager) "/api/new" "DELETE" = false.
Proof.
  apply (register_then_ask "unflagged_group" "/api/new" "delete" "DELETE"
           Fixtures.grouped_manager); [|reflexivity].
  intros g' (members & Hin & Hkey).
  cbn [Fixtures.grouped_manager FeatureFlags._api_groups] in Hin.
  apply elem_of_cons in Hin as [[= -> ->]|[= -> ->]%list_elem_of_singleton].
  - apply elem_of_union in Hkey as [Hkey%elem_of_singleton|Hkey%elem_of_singleton];
      discriminate Hkey.
  - apply elem_of_singleton in Hkey. discriminate Hkey.
Defined.

(** X8. The enabled and the disabled group names split the names that have
    a flag: a name is enabled exactly when its flag is [True], disabled
    exactly when it is [False], never both, and a name without flag is in
    neither set. *)
Theorem enabled_and_disabled_groups (self : FeatureFlags.FeatureFlagManager) (g : string) :
  (g ∈ FeatureFlags.get_enabled_api_groups self ↔ FeatureFlags._flags self !! g = Some true)
  ∧ (g ∈ FeatureFlags.get_disabled_api_groups self
     ↔ FeatureFlags._flags self !! g = Some false)
  ∧ FeatureFlags.get_enabled_api_groups self ∪ FeatureFlags.get_disabled_api_groups self
    = dom (FeatureFlags._flags self)
  ∧ FeatureFlags.get_enabled_api_groups self ∩ FeatureFlags.get_disabled_api_groups self = ∅.
Proof.
  assert (Hdom : ∀ b x,
    x ∈ dom (filter (λ kv : string * bool, kv.2 = b) (FeatureFlags._flags self))
    ↔ FeatureFlags._flags self !! x = Some b).
  { intros b x. rewrite elem_of_dom. split.
    - intros [v [Hv Hb]%map_lookup_filter_Some]. cbn in Hb. by subst.
    - intros Hx. exists b. by apply map_lookup_filter_Some. }
  unfold FeatureFlags.get_enabled_api_groups, FeatureFlags.get_disabled_api_groups.
  split; [apply Hdom|]. split; [apply Hdom|]. split.
  - apply set_eq. intros x. rewrite elem_of_union, !Hdom, elem_of_dom. split.
    + intros [Hx|Hx]; by eexists.
    + intros [[] Hx]; [by left|by right].
  - apply set_eq. intros x. rewrite elem_of_intersection, !Hdom, elem_of_empty. split.
    + intros [Ht Hf]. congruence.
    + done.
Qed.

(** X9. The group dictionary stays well formed: a manager as [__init__]
    leaves it is well formed, and [register_api_group] keeps group names
    unique and stored methods in upper case. *)
Theorem register_keeps_well_formed (g p m : string)
    (self : FeatureFlags.FeatureFlagManager) (environ : list (string * string)) :
  More.well_formed (FeatureFlags.init environ)
  ∧ (More.well_formed self → More.well_formed (FeatureFlags.register_api_group g p m self)).
Proof.
  split.
  - split; [constructor|]. by intros g' members p' m' []%elem_of_nil.
  - intros [Hnodup Hupper]. unfold More.well_formed, More.group_names.
    destruct (register_api_group_groups g p m self) as [-> _]. split.
    + rewrite add_member_names. case_bool_decide as Hin; [done|].
      apply NoDup_app. split; [done|]. split; [|apply NoDup_singleton].
      intros x Hx ->%list_elem_of_singleton. done.
    + intros g' members p' m' Hin Hkey.
      assert (Hmem : Spec.member (Spec.add_member g (p, Py.upper m)
                                    (FeatureFlags._api_groups self)) g' (p', m'))
        by (by exists members).
      apply member_add_member in Hmem as [(s & Hs & Hk)|[_ [= _ ->]]].
      * by apply (Hupper g' s p').
      * apply upper_idemp.
Qed.

Lemma register_keeps_well_formed_witness :
  More.well_formed
    (FeatureFlags.register_api_group "test_group" "/api/test1" "get"
       (FeatureFlags.init Fixtures.plain_environ)).
Proof.
  destruct (register_keeps_well_formed "test_group" "/api/test1" "get"
              (FeatureFlags.init Fixtures.plain_environ) Fixtures.plain_environ)
    as [Hinit Hstep].
  exact (Hstep Hinit).
Defined.

(** X10. Registration never reorders the groups: a group that is already
    registered keeps its place, and a new group goes after all the others,
    so that the group registered first stays the one that [is_api_enabled]
    asks first. *)
Theorem register_keeps_group_order (g p m : string)
    (self : FeatureFlags.FeatureFlagManager) :
  (g ∈ More.group_names self →
     More.group_names (FeatureFlags.register_api_group g p m self) = More.group_names self)
  ∧ (g ∉ More.group_names self →
     More.group_names (FeatureFlags.register_api_group g p m self)
     = More.group_names self ++ [g]).
Proof.
  unfold More.group_names.
  destruct (register_api_group_groups g p m self) as [-> _].
  rewrite add_member_names. split; intros Hin.
  - by rewrite bool_decide_eq_true_2.
  - by rewrite bool_decide_eq_false_2.
Qed.

Lemma register_keeps_group_order_witness :
  More.group_names
    (FeatureFlags.register_api_group "test_group" "/api/new" "GET" Fixtures.grouped_manager)
  = ["test_group"; "disabled_group"]
  ∧ More.group_names
      (FeatureFlags.register_api_group "new_group" "/api/new" "GET" Fixtures.grouped_manager)
    = ["test_group"; "disabled_group"; "new_group"].
Proof.
  split.
  - apply (register_keeps_group_order "test_group" "/api/new" "GET" Fixtures.grouped_manager).
    by left.
  - apply (register_keeps_group_order "new_group" "/api/new" "GET" Fixtures.grouped_manager).
    intros [[=]|[[=]|[]%elem_of_nil]%elem_of_cons]%elem_of_cons.
Defined.

(** ** Group names and the admission decision *)

Section GroupNames.

Lemma length_str_map (f : ascii → ascii) (s : string) :
  String.length (Py.str_map f s) = String.length s.
Proof. induction s as [|c s IH]; [done|]. cbn. by rewrite IH. Qed.

Lemma contains_char_str_map (f : ascii → ascii) (c : ascii) (s : string) :
  Py.contains (String c "") (Py.str_map f s) = true → ∃ a, f a = c.
Proof.
  induction s as [|a s IH]; [discriminate|].
  cbn [Py.str_map Py.contains Py.startswith]. rewrite andb_true_r.
  intros [Hc|Hc]%orb_true_iff; [|by apply IH].
  exists a. symmetry. by apply Ascii.eqb_eq.
Qed.

Lemma transform_char_range (a : ascii) :
  Spec.transform_char a ≠ " "%char ∧ Py.is_upper_char (Spec.transform_char a) = false.
Proof. by destruct a as [[] [] [] [] [] [] [] []]. Qed.

End GroupNames.

(** X11. For a tag of ASCII characters, the group name derived from it is
    a string of ASCII characters that has the length of the tag and holds
    neither a space nor an upper-case letter. *)
Theorem transform_tag_name_shape (tag : string) (c : ascii) :
  Py.isascii tag = true →
  String.length (Server._transform_tag_name tag) = String.length tag
  ∧ Py.isascii (Server._transform_tag_name tag) = true
  ∧ Py.contains " " (Server._transform_tag_name tag) = false
  ∧ (Py.contains (String c "") (Server._transform_tag_name tag) = true →
     Py.is_upper_char c = false).
Proof.
  intros Hascii. rewrite _transform_tag_name_chars.
  split; [apply length_str_map|]. split; [|split].
  - apply isascii_str_map; [|done].
    intros a. by destruct a as [[] [] [] [] [] [] [] []].
  - destruct (Py.contains " " _) eqn:Hsp; [|done].
    apply contains_char_str_map in Hsp as [a Ha].
    by destruct (transform_char_range a) as [Hne _].
  - intros [a <-]%contains_char_str_map. apply transform_char_range.
Qed.

Lemma transform_tag_name_shape_witness :
  String.length (Server._transform_tag_name "Device Reporting") = 16
  ∧ Py.contains " " (Server._transform_tag_name "Device Reporting") = false
  ∧ Py.is_upper_char "d" = false.
Proof.
  destruct (transform_tag_name_shape "Device Reporting" "d" eq_refl)
    as (Hlen & _ & Hspace & Hupper).
  split; [exact Hlen|]. split; [exact Hspace|]. apply Hupper. reflexivity.
Defined.

(** X12. The flags outrank everything but the blocklist's own exclusion: a
    route that [is_api_enabled] rejects is decided [EXCLUDE] whatever the
    blocklist setting, the method and the default classification are. *)
Theorem disabled_route_is_excluded (settings : Settings.Settings)
    (feature_flags : FeatureFlags.FeatureFlagManager)
    (route : Server.HTTPRoute) (mcp_type : Server.MCPType) (log : list Server.Call) :
  FeatureFlags.is_api_enabled feature_flags (Server.path route)
    (Py.upper (Server.method route)) = false →
  (Server._route_map_fn settings feature_flags route mcp_type log).1 = Server.EXCLUDE.
Proof.
  intros Hoff.
  destruct (Py.contains "-advanced" (Server.path route)) eqn:Hadv;
    [destruct (Settings.DISABLE_ADVANCED_API_BLOCKLIST settings) eqn:Hdis|].
  - rewrite route_map_fn_categorize by (by right).
    unfold Spec.flag_and_method_rules. cbn [fst]. by rewrite Hoff.
  - unfold Server._route_map_fn. by rewrite Hadv, Hdis.
  - rewrite route_map_fn_categorize by (by left).
    unfold Spec.flag_and_method_rules. cbn [fst]. by rewrite Hoff.
Qed.

Lemma disabled_route_is_excluded_witness :
  (Server._route_map_fn Settings.default Fixtures.grouped_manager
     {| Server.path := "/api/disabled"; Server.method := "get" |} Server.TOOL []).1
  = Server.EXCLUDE.
Proof.
  apply (disabled_route_is_excluded Settings.default Fixtures.grouped_manager
           {| Server.path := "/api/disabled"; Server.method := "get" |} Server.TOOL []).
  reflexivity.
Defined.

(** X13. What [_route_map_fn] can do: its decision is [EXCLUDE], [TOOL] or
    the caller's default, never another classification; it asks the flag
    manager at most once, with the path of the route and its method in upper
    case; and it gives a route the same result in whatever case its method
    is written. *)
Theorem route_map_fn_range (settings : Settings.Settings)
    (feature_flags : FeatureFlags.FeatureFlagManager)
    (route : Server.HTTPRoute) (mcp_type : Server.MCPType) (log : list Server.Call) :
  let result := Server._route_map_fn settings feature_flags route mcp_type log in
  (result.1 = Server.EXCLUDE ∨ result.1 = Server.TOOL ∨ result.1 = mcp_type)
  ∧ (result.2 = log
     ∨ result.2 = log ++ [Server.Call_is_api_enabled (Server.path route)
                            (Py.upper (Server.method route))])
  ∧ Server._route_map_fn settings feature_flags
      {| Server.path := Server.path route; Server.method := Py.upper (Server.method route) |}
      mcp_type log
    = result.
Proof.
  cbv zeta.
  destruct (Py.contains "-advanced" (Server.path route)) eqn:Hadv;
    [destruct (Settings.DISABLE_ADVANCED_API_BLOCKLIST settings) eqn:Hdis|].
  - rewrite !route_map_fn_categorize by (by right).
    unfold Spec.flag_and_method_rules. cbn [fst snd Server.path Server.method].
    rewrite upper_idemp. split; [|split; [by right|done]].
    destruct (FeatureFlags.is_api_enabled _ _ _); [|by left].
    destruct (bool_decide _); auto.
  - unfold Server._route_map_fn. cbn [Server.path]. rewrite Hadv, Hdis.
    split; [by left|]. split; [by left|done].
  - rewrite !route_map_fn_categorize by (by left).
    unfold Spec.flag_and_method_rules. cbn [fst snd Server.path Server.method].
    rewrite upper_idemp. split; [|split; [by right|done]].
    destruct (FeatureFlags.is_api_enabled _ _ _); [|by left].
    destruct (bool_decide _); auto.
Qed.

(** X14. The groups after start-up are the tags of the interface
    description: with a manager fresh from [__init__], an operation belongs
    to a group exactly when the description declares, for its path and for
    a method key that upper-cases like its method, an operation one of whose
    tags has the group as its name.  The server's own dictionary holds the
    same pairs, and the flags are those of the environment. *)
Theorem groups_after_startup (paths : Server.Paths) (environ : list (string * string))
    (g p m : string) :
  let started :=
    Server._extract_api_groups_from_openapi paths [] (FeatureFlags.init environ) in
  let declared :=
    ∃ m0 op tag, Spec.declares paths p m0 op ∧ Py.upper m0 = Py.upper m
                 ∧ tag ∈ Server.tags op ∧ Server._transform_tag_name tag = g in
  (Spec.belongs started.2 g p m ↔ declared)
  ∧ (Spec.member started.1 g (p, Py.upper m) ↔ declared)
  ∧ FeatureFlags._flags started.2 = Settings.get_feature_flags_from_env environ.
Proof.
  cbv zeta. split; [|split].
  - split.
    + intros (p' & m0 & op & tag & Hdecl & Htag & -> & [= <- Hm])%member_after_extraction.
      by exists m0, op, tag.
    + intros (m0 & op & tag & Hdecl & Hm & Htag & <-). apply member_after_extraction.
      exists p, m0, op, tag. by rewrite Hm.
  - unfold Server._extract_api_groups_from_openapi. cbn [fst].
    rewrite member_extract_paths. split.
    + intros [(s & []%elem_of_nil & _)|(p' & m0 & op & tag & Hdecl & Htag & -> & [= <- Hm])].
      by exists m0, op, tag.
    + intros (m0 & op & tag & Hdecl & Hm & Htag & <-). right.
      exists p, m0, op, tag. by rewrite Hm.
  - unfold Server._extract_api_groups_from_openapi. cbn [snd].
    by destruct (register_groups_spec (Server.extract_paths paths [])
                   (FeatureFlags.init environ) "" ("", "")) as [_ ->].
Qed.

(** X15. An operation without tags is never gated: when every operation
    that the description declares for its path and method has an empty tag
    list, the manager fresh from start-up enables it whatever the
    environment says. *)
Theorem untagged_operation_is_enabled (paths : Server.Paths)
    (environ : list (string * string)) (p m : string) :
  (∀ m0 op, Spec.declares paths p m0 op → Py.upper m0 = Py.upper m →
     Server.tags op = []) →
  FeatureFlags.is_api_enabled
    (Server._extract_api_groups_from_openapi paths [] (FeatureFlags.init environ)).2 p m
  = true.
Proof.
  intros Huntagged. unfold FeatureFlags.is_api_enabled.
  destruct (_ && _); [done|].
  rewrite scan_groups_none; [done|].
  intros g s Hin Hkey.
  assert (Hmem : Spec.member
            (FeatureFlags._api_groups
               (Server._extract_api_groups_from_openapi paths []
                  (FeatureFlags.init environ)).2) g (p, Py.upper m))
    by (by exists s).
  apply member_after_extraction in Hmem
    as (p' & m0 & op & tag & Hdecl & Htag & _ & [= <- Hm]).
  rewrite (Huntagged m0 op Hdecl) in Htag by done. by apply elem_of_nil in Htag.
Qed.

Lemma untagged_operation_is_enabled_witness :
  Spec.declares Fixtures.health_paths "/health" "get" {| Server.tags := [] |}
  ∧ FeatureFlags.is_api_enabled
      (Server._extract_api_groups_from_openapi Fixtures.health_paths []
         (FeatureFlags.init Fixtures.disabling_environ)).2 "/health" "GET"
    = true.
Proof.
  split.
  - exists [("get", {| Server.tags := [] |})]. split; [right|]; by left.
  - apply (untagged_operation_is_enabled Fixtures.health_paths Fixtures.disabling_environ
             "/health" "GET").
    intros m0 op (methods & Hpath & Hop) _.
    unfold Fixtures.health_paths in Hpath.
    apply elem_of_cons in Hpath as [Hpath|Hpath%list_elem_of_singleton];
      [discriminate Hpath|].
    injection Hpath as ->. by apply list_elem_of_singleton in Hop as [= _ ->].
Defined.

(** ** Descriptions of the interface document *)

Section Descriptions.

Context {Atom : Type}.
Variable handle : string → string.

Lemma Node_induction (P : Description.Node Atom → Prop) :
  (∀ a, P (Description.NAtom a)) →
  (∀ s, P (Description.NStr s)) →
  (∀ l, Forall P l → P (Description.NList l)) →
  (∀ d, Forall (λ kv, P kv.2) d → P (Description.NDict d)) →
  ∀ t, P t.
Proof.
  intros Hatom Hstr Hlist Hdict. fix IH 1. intros [a|s|l|d].
  - apply Hatom.
  - apply Hstr.
  - apply Hlist. induction l as [|x l IHl]; constructor; [apply IH|apply IHl].
  - apply Hdict. induction d as [|[k v] d IHd]; constructor; [apply IH|apply IHd].
Qed.

Lemma lstrip_start (s : string) (c : ascii) (s' : string) :
  Py.lstrip s = String c s' → Py.isspace c = false.
Proof.
  induction s as [|a s IH]; [discriminate|]. cbn [Py.lstrip].
  destruct (Py.isspace a) eqn:Ha; [exact IH|]. by intros [= <- _].
Qed.

Lemma rstrip_start (s : string) (c : ascii) (s' : string) :
  Py.rstrip s = String c s' → ∃ s0, s = String c s0.
Proof.
  destruct s as [|a s]; [discriminate|]. cbn [Py.rstrip].
  destruct (Py.rstrip s); [destruct (Py.isspace a)|]; intros [= <- _]; by eexists.
Qed.

Lemma rstrip_end (s : string) (c : ascii) :
  More.last_char (Py.rstrip s) = Some c → Py.isspace c = false.
Proof.
  induction s as [|a s IH]; [discriminate|]. cbn [Py.rstrip].
  destruct (Py.rstrip s) as [|b r] eqn:Hr.
  - destruct (Py.isspace a) eqn:Ha; [discriminate|]. by intros [= <-].
  - exact IH.
Qed.

Lemma strip_trimmed (s : string) : More.trimmed (Py.strip s).
Proof.
  unfold Py.strip. split.
  - intros c s' Hstrip. apply rstrip_start in Hstrip as [s0 Hs0].
    by apply lstrip_start in Hs0.
  - apply rstrip_end.
Qed.

End Descriptions.

Section DescriptionFacts.

Context {Atom : Type}.
Variable handle : string → string.

Lemma flat_map_Forall_eq {A B : Type} (f g : A → list B) (l : list A) :
  Forall (λ x, f x = g x) l → List.flat_map f l = List.flat_map g l.
Proof. induction 1 as [|x l Hx _ IH]; [done|]. cbn. by rewrite Hx, IH. Qed.

Lemma flat_map_of_map {A B C : Type} (f : A → B) (g : B → list C) (l : list A) :
  List.flat_map g (List.map f l) = List.flat_map (λ x, g (f x)) l.
Proof. induction l as [|x l IH]; [done|]. cbn. by rewrite IH. Qed.

Lemma map_of_flat_map {A B C : Type} (g : A → list B) (h : B → C) (l : list A) :
  List.map h (List.flat_map g l) = List.flat_map (λ x, List.map h (g x)) l.
Proof. induction l as [|x l IH]; [done|]. cbn. by rewrite List.map_app, IH. Qed.

Lemma strip_html_skeleton (obj : Description.Node Atom) :
  More.skeleton (Description._strip_html_from_description handle obj) = More.skeleton obj.
Proof.
  induction obj as [a|s|l IH|d IH] using Node_induction; [done|done| |].
  - cbn [Description._strip_html_from_description More.skeleton]. f_equal.
    rewrite List.map_map. apply List.map_ext_Forall.
    eapply Forall_impl; [exact IH|]. by intros [a|s|l'|d'] Hx.
  - cbn [Description._strip_html_from_description More.skeleton]. f_equal.
    rewrite List.map_map. apply List.map_ext_Forall.
    eapply Forall_impl; [exact IH|]. intros [k [a|s|l'|d']] Hx; cbn [snd] in Hx.
    + done.
    + by destruct (String.eqb k "description").
    + by rewrite Hx.
    + by rewrite Hx.
Qed.

Lemma strip_html_other_strings (obj : Description.Node Atom) :
  More.other_strings (Description._strip_html_from_description handle obj)
  = More.other_strings obj.
Proof.
  induction obj as [a|s|l IH|d IH] using Node_induction; [done|done| |].
  - cbn [Description._strip_html_from_description More.other_strings].
    rewrite flat_map_of_map. apply flat_map_Forall_eq.
    eapply Forall_impl; [exact IH|]. by intros [a|s|l'|d'] Hx.
  - cbn [Description._strip_html_from_description More.other_strings].
    rewrite flat_map_of_map. apply flat_map_Forall_eq.
    eapply Forall_impl; [exact IH|]. intros [k [a|s|l'|d']] Hx; cbn [snd] in Hx.
    + done.
    + by destruct (String.eqb k "description") eqn:Hk; rewrite ?Hk.
    + done.
    + done.
Qed.

Lemma strip_html_descriptions (obj : Description.Node Atom) :
  More.descriptions (Description._strip_html_from_description handle obj)
  = List.map (λ s, Py.strip (handle s)) (More.descriptions obj).
Proof.
  induction obj as [a|s|l IH|d IH] using Node_induction; [done|done| |].
  - cbn [Description._strip_html_from_description More.descriptions].
    rewrite flat_map_of_map, map_of_flat_map. apply flat_map_Forall_eq.
    eapply Forall_impl; [exact IH|]. by intros [a|s|l'|d'] Hx.
  - cbn [Description._strip_html_from_description More.descriptions].
    rewrite flat_map_of_map, map_of_flat_map. apply flat_map_Forall_eq.
    eapply Forall_impl; [exact IH|]. intros [k [a|s|l'|d']] Hx; cbn [snd] in Hx.
    + done.
    + by destruct (String.eqb k "description") eqn:Hk; rewrite ?Hk.
    + done.
    + done.
Qed.

End DescriptionFacts.

(** X16. [_strip_html_from_description] rewrites the strings that the
    document holds under a key [description] and nothing else: the shape,
    the keys and the atoms of the document are as before, every other string
    is as before, and each description is the output of [html2text] for it,
    stripped of white space at both ends. *)
Theorem strip_html_changes_descriptions_only {Atom : Type} (handle : string → string)
    (obj : Description.Node Atom) :
  More.skeleton (Description._strip_html_from_description handle obj) = More.skeleton obj
  ∧ More.other_strings (Description._strip_html_from_description handle obj)
    = More.other_strings obj
  ∧ More.descriptions (Description._strip_html_from_description handle obj)
    = List.map (λ s, Py.strip (handle s)) (More.descriptions obj).
Proof.
  split; [apply strip_html_skeleton|].
  split; [apply strip_html_other_strings|apply strip_html_descriptions].
Qed.

(** X17. After [_strip_html_from_description] no description of the
    document begins or ends with white space, at any depth. *)
Theorem stripped_descriptions_are_trimmed {Atom : Type} (handle : string → string)
    (obj : Description.Node Atom) (s : string) :
  s ∈ More.descriptions (Description._strip_html_from_description handle obj) →
  More.trimmed s.
Proof.
  rewrite strip_html_descriptions.
  intros (x & -> & _)%list_elem_of_fmap. apply strip_trimmed.
Qed.

Lemma stripped_descriptions_are_trimmed_witness :
  More.trimmed "<p>Lists devices</p>".
Proof.
  apply (stripped_descriptions_are_trimmed (λ s, " " +:+ s +:+ " ")
           (Description.NDict
              [("get", Description.NDict
                         [("description", Description.NStr "<p>Lists devices</p> ");
                          ("operationId", @Description.NAtom Z 7%Z)])])).
  apply (bool_decide_unpack _). vm_compute. exact I.
Defined.

(** ** Logging *)

(** X18. The log level of [configure_logging] is one of the five levels of
    the table; for a [LOG_LEVEL] of ASCII characters it does not depend on
    the case in which the name is written; and every name outside the table,
    [warn] and the empty string included, gives [INFO]. *)
Theorem log_level_resolution (LOG_LEVEL : string) :
  Logging.log_level LOG_LEVEL
    ∈ [Logging.DEBUG; Logging.INFO; Logging.WARNING; Logging.ERROR; Logging.CRITICAL]
  ∧ (Py.isascii LOG_LEVEL = true →
     Logging.log_level (Py.upper LOG_LEVEL) = Logging.log_level LOG_LEVEL)
  ∧ (Py.lower LOG_LEVEL ∉ ["debug"; "info"; "warning"; "error"; "critical"] →
     Logging.log_level LOG_LEVEL = Logging.INFO).
Proof.
  unfold Logging.log_level. cbv zeta. split; [|split].
  - unfold Logging.LOG_LEVEL_MAP.
    repeat (rewrite lookup_insert; case_decide; [cbn [default]; set_solver|]).
    rewrite lookup_singleton. case_decide; cbn [default]; set_solver.
  - intros Hascii.
    assert (Hlower : Py.lower (Py.upper LOG_LEVEL) = Py.lower LOG_LEVEL).
    { rewrite (upper_isascii _ Hascii). unfold Py.lower.
      rewrite str_map_compose. apply str_map_ext.
      intros c _. by destruct c as [[] [] [] [] [] [] [] []]. }
    by rewrite Hlower.
  - intros Hout. unfold Logging.LOG_LEVEL_MAP.
    repeat (rewrite lookup_insert; case_decide as Hk;
            [exfalso; apply Hout; rewrite <- Hk; set_solver|clear Hk]).
    rewrite lookup_singleton. case_decide as Hk; [|done].
    exfalso. apply Hout. rewrite <- Hk. set_solver.
Qed.

Lemma log_level_resolution_witness :
  Logging.log_level "warn" = Logging.INFO
  ∧ Logging.log_level (Py.upper "Debug") = Logging.log_level "Debug".
Proof.
  destruct (log_level_resolution "warn") as (_ & _ & Hout).
  destruct (log_level_resolution "Debug") as (_ & Hcase & _).
  split; [|apply Hcase; reflexivity].
  apply Hout. apply (bool_decide_unpack _). vm_compute. exact I.
Defined.

(** ** The signed envelope *)

Section Escapes.

Lemma unescape_head_escape_char (ensure_ascii : bool) (c : ascii) (r : string) :
  More.unescape_head (Json.escape_char ensure_ascii c +:+ r) = Some (c, r).
Proof. by destruct ensure_ascii, c as [[] [] [] [] [] [] [] []]. Qed.

Lemma escape_cons_app (ensure_ascii : bool) (c : ascii) (s r : string) :
  Json.escape ensure_ascii (String c s) +:+ r
  = Json.escape_char ensure_ascii c +:+ Json.escape ensure_ascii s +:+ r.
Proof. cbn [Json.escape]. apply append_assoc. Qed.

(** An escaped string ends at the first double quote after it. *)
Lemma escape_delimited (ensure_ascii : bool) (s1 s2 r1 r2 : string) :
  Json.escape ensure_ascii s1 +:+ String Py.dquote r1
  = Json.escape ensure_ascii s2 +:+ String Py.dquote r2 →
  s1 = s2 ∧ r1 = r2.
Proof.
  revert s2. induction s1 as [|c1 s1 IH]; intros [|c2 s2].
  - cbn [Json.escape]. rewrite !append_nil_l. by intros [= ->].
  - rewrite escape_cons_app. cbn [Json.escape]. rewrite append_nil_l.
    intros Heq. apply (f_equal More.unescape_head) in Heq.
    by rewrite unescape_head_escape_char in Heq.
  - rewrite escape_cons_app. cbn [Json.escape]. rewrite append_nil_l.
    intros Heq. apply (f_equal More.unescape_head) in Heq.
    by rewrite unescape_head_escape_char in Heq.
  - rewrite !escape_cons_app. intros Heq.
    apply (f_equal More.unescape_head) in Heq.
    rewrite !unescape_head_escape_char in Heq. injection Heq as -> Heq.
    destruct (IH _ Heq) as [-> ->]. done.
Qed.

Lemma dumps_str_app (ensure_ascii : bool) (s r : string) :
  Json.dumps_str ensure_ascii s +:+ r
  = String Py.dquote (Json.escape ensure_ascii s +:+ String Py.dquote r).
Proof. unfold Json.dumps_str. rewrite append_cons, append_assoc. done. Qed.

End Escapes.

Section Binding.

Variable hmac_sha256 : list byte → list byte → list byte.

(** The compact JSON text of the JWS headers: five constant pieces around
    the four escaped strings and the decimal clock reading. *)
Lemma jws_header_text (self : AuthClient.AbsoluteAuthClient)
    (method path query_string : string) (issued_at : Z) :
  Json.dumps_compact (Json.JDict (AuthClient.jws_header self method path query_string issued_at))
  = ("{" +:+ Spec.quoted "alg" +:+ ":" +:+ Spec.quoted "HS256" +:+ ","
       +:+ Spec.quoted "kid" +:+ ":" +:+ String Py.dquote "")
    +:+ Json.escape false (AuthClient.token_id self)
    +:+ String Py.dquote ("," +:+ Spec.quoted "method" +:+ ":" +:+ String Py.dquote "")
    +:+ Json.escape false (Py.upper method)
    +:+ String Py.dquote ("," +:+ Spec.quoted "content-type" +:+ ":"
                          +:+ Spec.quoted "application/json" +:+ ","
                          +:+ Spec.quoted "uri" +:+ ":" +:+ String Py.dquote "")
    +:+ Json.escape false path
    +:+ String Py.dquote ("," +:+ Spec.quoted "query-string" +:+ ":" +:+ String Py.dquote "")
    +:+ Json.escape false query_string
    +:+ String Py.dquote ("," +:+ Spec.quoted "issuedAt" +:+ ":")
    +:+ Json.dumps_int issued_at +:+ "}".
Proof.
  unfold Json.dumps_compact, AuthClient.jws_header.
  cbn [Json.dumps List.map Json.join].
  repeat rewrite append_assoc. rewrite !dumps_str_app. reflexivity.
Qed.

Lemma serialize_compact_inj (protected1 protected2 : list (string * Json.JSON))
    (payload1 payload2 key1 key2 : string) :
  Jws.serialize_compact hmac_sha256 protected1 payload1 key1
  = Jws.serialize_compact hmac_sha256 protected2 payload2 key2 →
  Json.dumps_compact (Json.JDict protected1) = Json.dumps_compact (Json.JDict protected2)
  ∧ payload1 = payload2.
Proof.
  unfold Jws.serialize_compact. cbv zeta. rewrite !append_assoc. intros Heq.
  pose proof Heq as Hhead.
  apply split_at_dot in Hhead; [|apply urlsafe_b64encode_no_dot..].
  rewrite Hhead in Heq. do 2 apply (inj (String.append _)) in Heq.
  apply split_at_dot in Heq; [|apply urlsafe_b64encode_no_dot..].
  split; by apply to_bytes_inj, urlsafe_b64encode_inj.
Qed.

End Binding.

(** X19. The envelope binds what was signed: two calls of
    [_prepare_jws_payload] that return the same envelope, for whatever
    clients and arguments, were made with the same key id, the same method up
    to case, the same path and query string, the same clock reading, and the
    same payload text. *)
Theorem envelope_binds_request (hmac_sha256 : list byte → list byte → list byte)
    (self1 self2 : AuthClient.AbsoluteAuthClient)
    (method1 method2 path1 path2 query1 query2 : string)
    (json1 json2 : option (list (string * Json.JSON))) (w1 w2 : AuthClient.World) :
  (AuthClient._prepare_jws_payload hmac_sha256 self1 method1 path1 query1 json1 w1).1
  = (AuthClient._prepare_jws_payload hmac_sha256 self2 method2 path2 query2 json2 w2).1 →
  AuthClient.token_id self1 = AuthClient.token_id self2
  ∧ Py.upper method1 = Py.upper method2
  ∧ path1 = path2
  ∧ query1 = query2
  ∧ AuthClient.issued_at_ms w1 = AuthClient.issued_at_ms w2
  ∧ AuthClient.request_payload json1 = AuthClient.request_payload json2.
Proof.
  unfold AuthClient._prepare_jws_payload, mbind, AuthClient.IO_bind, mret, AuthClient.IO_ret,
    AuthClient.time_ms, AuthClient.logger_debug.
  cbn [fst]. intros [Hheader Hpayload]%serialize_compact_inj.
  rewrite !jws_header_text in Hheader.
  apply (inj (String.append _)) in Hheader.
  apply escape_delimited in Hheader as [Hkid Hheader].
  apply (inj (String.append _)) in Hheader.
  apply escape_delimited in Hheader as [Hmethod Hheader].
  apply (inj (String.append _)) in Hheader.
  apply escape_delimited in Hheader as [Hpath Hheader].
  apply (inj (String.append _)) in Hheader.
  apply escape_delimited in Hheader as [Hquery Hheader].
  apply (inj (String.append _)) in Hheader.
  apply append_inj_r, dumps_int_inj in Hheader.
  done.
Qed.

Lemma envelope_binds_request_witness :
  AuthClient.request_payload (Some []) = AuthClient.request_payload None.
Proof.
  apply (envelope_binds_request Fixtures.mock_hmac Fixtures.test_client Fixtures.test_client
           "get" "GET" "/v3/api/test" "/v3/api/test" "" "" (Some []) None
           Fixtures.test_world Fixtures.test_world).
  reflexivity.
Defined.

(** ** From the environment to the decision *)

(** X20. One variable gates the operations of one tag: for a tag of ASCII
    characters without underscore whose variable is set in the environment,
    and not overridden by a later variable of the same flag, an operation
    that the description declares once, with this tag alone, is enabled after
    start-up exactly when the value of the variable is [enabled] in some
    case; any other value, [true] and [1] included, disables it. *)
Theorem tag_variable_gates_operation (tag value : string)
    (before after : list (string * string)) (paths : Server.Paths)
    (p m : string) (op : Server.Operation) :
  Py.isascii tag = true →
  Py.contains "_" tag = false →
  (∀ k v, (k, v) ∈ after → More.is_flag k →
     More.feature_name k ≠ Server._transform_tag_name tag) →
  Spec.only_operation paths p m op →
  Server.tags op = [tag] →
  FeatureFlags.is_api_enabled
    (Server._extract_api_groups_from_openapi paths []
       (FeatureFlags.init (before ++ (More.env_key_of_tag tag, value) :: after))).2 p m
  = More.flag_value value.
Proof.
  intros Hascii Htag Hafter [Hdecl Honly] Htags.
  set (environ := before ++ (More.env_key_of_tag tag, value) :: after).
  set (ff := (Server._extract_api_groups_from_openapi paths [] (FeatureFlags.init environ)).2).
  assert (Hflags : FeatureFlags._flags ff = Settings.get_feature_flags_from_env environ).
  { unfold ff, Server._extract_api_groups_from_openapi. cbn [snd].
    by destruct (register_groups_spec (Server.extract_paths paths [])
                   (FeatureFlags.init environ) "" ("", "")) as [_ ->]. }
  assert (Hname := feature_name_env_key_of_tag tag Hascii Htag).
  assert (Hlookup : Settings.get_feature_flags_from_env environ
                    !! Server._transform_tag_name tag = Some (More.flag_value value)).
  { unfold Settings.get_feature_flags_from_env.
    assert (Hlast : Settings.scan_env environ ∅ !! Server._transform_tag_name tag
                    = Some (More.flag_value value)).
    { rewrite <- Hname. apply scan_env_last; [apply startswith_app|]. by rewrite Hname. }
    destruct (bool_decide (Settings.scan_env _ ∅ = ∅)) eqn:Hempty; [|done].
    apply bool_decide_eq_true_1 in Hempty. by rewrite Hempty, lookup_empty in Hlast. }
  rewrite (is_api_enabled_one_group ff (Server._transform_tag_name tag)).
  - rewrite Hflags, Hlookup. reflexivity.
  - apply member_after_extraction. exists p, m, op, tag.
    rewrite Htags. split; [done|]. split; [by apply list_elem_of_singleton|done].
  - intros g' Hbel. apply member_after_extraction in Hbel
      as (p' & m' & op' & tag' & Hdecl' & Htag' & -> & [= <- Hm]).
    rewrite (Honly m' op' Hdecl') in Htag' by done.
    rewrite Htags in Htag'. by apply list_elem_of_singleton in Htag' as ->.
Qed.

Lemma tag_variable_gates_operation_witness :
  FeatureFlags.is_api_enabled
    (Server._extract_api_groups_from_openapi Fixtures.reporting_paths []
       (FeatureFlags.init
          [("API_KEY", "foo"); (More.env_key_of_tag "Software Reporting", "Enabled");
           ("ABS_FEATURE_DEVICE_REPORTING", "true")])).2
    "/reporting/software" "get"
  = true
  ∧ FeatureFlags.is_api_enabled
      (Server._extract_api_groups_from_openapi Fixtures.reporting_paths []
         (FeatureFlags.init
            [(More.env_key_of_tag "Device Reporting", "true")])).2
      "/reporting/devices" "get"
    = false.
Proof.
  split.
  - apply (tag_variable_gates_operation "Software Reporting" "Enabled"
             [("API_KEY", "foo")] [("ABS_FEATURE_DEVICE_REPORTING", "true")]
             Fixtures.reporting_paths "/reporting/software" "get"
             {| Server.tags := ["Software Reporting"] |}).
    + reflexivity.
    + reflexivity.
    + intros k v [= -> ->]%list_elem_of_singleton _. discriminate.
    + apply reporting_paths_only. right. by left.
    + reflexivity.
  - apply (tag_variable_gates_operation "Device Reporting" "true" [] []
             Fixtures.reporting_paths "/reporting/devices" "get"
             {| Server.tags := ["Device Reporting"] |}).
    + reflexivity.
    + reflexivity.
    + by intros k v []%elem_of_nil.
    + apply reporting_paths_only. by left.
    + reflexivity.
Defined.
